(** * analyze-pdf-fonts.py: a shallow embedding and its properties

    The script is one procedure, [analyze_pdf_fonts], that prints a report on
    a PDF in two phases: one through PyPDF2, one through pdfplumber.  Each
    phase sits in its own [try ... except Exception] block.

    Modelling choices.
    - A Python [str] is a Rocq [string], one [ascii] per character.
    - The exact value of a Python [float] is a rational ([Q]).  The result of
      [round(x, 1)] is kept as its number of tenths (a [Z]): the float that
      Python returns is the one nearest to that many tenths.
    - Console output is the list of the arguments of the [print] calls, in
      order (each call writes its argument and a line break).
    - The two libraries and the file system are the [world] the script runs
      in; every call into them either returns or raises.
    - Formatting done by Python builtins ([repr] of a [str], [str] of a
      [float], [repr] of a [set]) is a parameter of the development. *)

From Stdlib Require Import ZArith QArith Qround Qabs Lqa String Ascii List Permutation Lia.
From stdpp Require Import base option list gmap strings sorting pretty.

#[local] Arguments String.append !s1 s2 : simpl nomatch.

(** ** Python builtins used by the script *)

Module Py.

(** The one-character string holding a line feed. *)
Definition newline : string := String "010"%char EmptyString.

(** [s[:n]] for a non-negative [n]. *)
Fixpoint slice_to (n : nat) (s : string) : string :=
  match n, s with
  | S n', String c s' => String c (slice_to n' s')
  | _, _ => EmptyString
  end.

(** [s * n]. *)
Fixpoint str_mul (s : string) (n : nat) : string :=
  match n with
  | O => EmptyString
  | S n' => s +:+ str_mul s n'
  end.

(** [sep.join(l)]. *)
Fixpoint join (sep : string) (l : list string) : string :=
  match l with
  | [] => EmptyString
  | [x] => x
  | x :: l' => x +:+ sep +:+ join sep l'
  end.

(** [round_half_even q]: the integer nearest to [q], ties to the even one. *)
Definition round_half_even (q : Q) : Z :=
  let f := Qfloor q in
  match (q - inject_Z f ?= 1 # 2)%Q with
  | Lt => f
  | Gt => (f + 1)%Z
  | Eq => if Z.even f then f else (f + 1)%Z
  end.

(** [round(x, 1)] on a float of exact value [x], as a number of tenths.
    CPython rounds the exact binary value correctly, ties to even. *)
Definition round1 (x : Q) : Z := round_half_even (x * 10).

(** The value of the float that has [k] tenths. *)
Definition of_tenths (k : Z) : Q := k # 10.

(** [sorted(s)] of a set of floats given by their tenths: the members in
    ascending order. *)
Definition sorted (s : gset Z) : list Z := merge_sort Z.le (elements s).

(** An exception object: whether [except Exception] catches it (it does not
    catch [KeyboardInterrupt], [SystemExit] and other [BaseException]s),
    [str(e)], and the status the interpreter ends with when the exception
    reaches the top level: 1 for an ordinary exception, [n] for
    [SystemExit(n)], and for [KeyboardInterrupt] the 130 that a POSIX shell
    reports for a process ended by SIGINT. *)
Record exn := { exn_is_Exception : bool; exn_str : string; exn_exit_status : Z }.

Inductive result (A : Type) : Type :=
| Ok (a : A)
| Raise (e : exn).
Arguments Ok {A} a.
Arguments Raise {A} e.

Definition result_map {A B} (f : A -> B) (r : result A) : result B :=
  match r with
  | Ok a => Ok (f a)
  | Raise e => Raise e
  end.

(** [l[0]]. *)
Definition index0 {A} (l : list A) : result A :=
  match l with
  | x :: _ => Ok x
  | [] => Raise {| exn_is_Exception := true; exn_exit_status := 1; exn_str := "list index out of range" |}
  end.

End Py.
Import Py.

(** ** Resources and the effect monad *)

(** What the script holds open: a file object from [open(path, 'rb')], or a
    pdfplumber document from [pdfplumber.open(path)]. *)
Inductive handle : Type :=
| FileObject (path : string)
| PlumberPDF (path : string).

#[global] Instance handle_eq_dec : EqDecision handle.
Proof. solve_decision. Defined.

(** Closing a handle drops it from the open ones. *)
Fixpoint close_handle (h : handle) (hs : list handle) : list handle :=
  match hs with
  | [] => []
  | h' :: hs' => if decide (h = h') then hs' else h' :: close_handle h hs'
  end.

(** What a piece of the script does, started with some handles open: the
    lines it printed, the handles open afterwards, and its result. *)
Record outcome (A : Type) : Type := MkOutcome {
  printed : list string;
  handles : list handle;
  res : result A
}.
Arguments MkOutcome {A} printed handles res.
Arguments printed {A} o.
Arguments handles {A} o.
Arguments res {A} o.

Definition M (A : Type) : Type := list handle -> outcome A.

Definition ret {A} (a : A) : M A := fun hs => MkOutcome [] hs (Ok a).

Definition bind {A B} (m : M A) (k : A -> M B) : M B := fun hs =>
  let o := m hs in
  match res o with
  | Ok a =>
      let o' := k a (handles o) in
      MkOutcome (printed o ++ printed o') (handles o') (res o')
  | Raise e => MkOutcome (printed o) (handles o) (Raise e)
  end.

Declare Scope py_scope.
Delimit Scope py_scope with py.
Notation "x <- c1 ;; c2" := (bind c1 (fun x => c2))
  (at level 20, c1 at level 99, c2 at level 200, only parsing) : py_scope.
Notation "c1 ;; c2" := (bind c1 (fun _ => c2))
  (at level 100, c2 at level 200, only parsing, right associativity) : py_scope.
Local Open Scope py_scope.

(** [print(s)]. *)
Definition print (s : string) : M unit := fun hs => MkOutcome [s] hs (Ok tt).

(** A library call that touches neither the console nor the handles. *)
Definition call {A} (r : result A) : M A := fun hs => MkOutcome [] hs r.

(** [for x in l: body]. *)
Fixpoint for_ {A} (l : list A) (body : A -> M unit) : M unit :=
  match l with
  | [] => ret tt
  | x :: l' => body x ;; for_ l' body
  end.

(** [try: m  except Exception as e: handler]. *)
Definition try_except (m : M unit) (handler : exn -> M unit) : M unit := fun hs =>
  let o := m hs in
  match res o with
  | Ok a => o
  | Raise e =>
      if exn_is_Exception e then
        let o' := handler e (handles o) in
        MkOutcome (printed o ++ printed o') (handles o') (res o')
      else o
  end.

(** [with acquire as x: body]: [release] is the context manager's
    [__exit__]; it runs on every way out of [body] and lets an exception
    pass on. *)
Definition with_ {A B} (acquire : M A) (release : A -> list handle -> list handle)
    (body : A -> M B) : M B := fun hs =>
  let o := acquire hs in
  match res o with
  | Ok a =>
      let o' := body a (handles o) in
      MkOutcome (printed o ++ printed o') (release a (handles o')) (res o')
  | Raise e => MkOutcome (printed o) (handles o) (Raise e)
  end.

(** [neutral m]: [m] ends with the handles it started with. *)
Definition neutral {A} (m : M A) : Prop := ∀ hs, handles (m hs) = hs.

(** [prints_only P m]: every line [m] prints satisfies [P]. *)
Definition prints_only {A} (P : string → Prop) (m : M A) : Prop :=
  ∀ hs, Forall P (printed (m hs)).

(** ** The world: file system, PyPDF2 and pdfplumber *)

(** The bytes of a file. *)
Definition bytes : Type := list Byte.byte.

(** The binary file object that [open(path, 'rb')] returns. *)
Record file_object := { name : string; content : bytes }.

Module PyPDF2.

(** A page: [page.extract_text()]. *)
Record PageObject := { extract_text : result string }.

(** A reader: [reader.pages] and [reader.metadata] ([None] or a mapping,
    given by its items in order, keys and values as [print] shows them).
    Both are computed on access and may raise. *)
Record PdfReader := {
  pages : result (list PageObject);
  metadata : result (option (list (string * string)))
}.

End PyPDF2.

Module pdfplumber.

(** A character record of pdfplumber with the three keys the script reads;
    each may be missing.  pdfplumber gives [text] and [fontname] as [str] and
    [size] as a float. *)
Record char := {
  text : option string;
  fontname : option string;
  size : option Q
}.

(** A page: [page.extract_text()] ([None] or a [str]) and [page.chars]. *)
Record Page := {
  extract_text : result (option string);
  chars : result (list char)
}.

(** A parsed document: [pdf.pages]. *)
Record PDF := { pages : result (list Page) }.

(** An open document: what [pdfplumber.open(path)] returns. *)
Record open_PDF := { path : string; doc : PDF }.

End pdfplumber.

(** One run's surroundings.  [fs] holds the files that exist, by path.
    [PdfReader] is PyPDF2's constructor on a file's bytes, [plumber_PDF] is
    pdfplumber's parser on them.  [hash_seed] is the interpreter's string hash
    seed, on which the order of a printed set of strings depends. *)
Record world := {
  fs : gmap string bytes;
  PdfReader : bytes -> result PyPDF2.PdfReader;
  plumber_PDF : bytes -> result pdfplumber.PDF;
  hash_seed : N
}.

(** ** Concrete surroundings used as test inputs *)

Module Examples.

(** Stand-ins for the three builtin formatters: quotes around a string, a
    non-negative number with one or two decimals, and the members of a set
    in the order of [elements]. *)
Definition repr_str (s : string) : string := "'" +:+ s +:+ "'".
Definition str_float (x : Q) : string :=
  let h := (Qnum x * 100 / Zpos (Qden x))%Z in
  let frac := (h mod 100)%Z in
  pretty (h / 100)%Z +:+ "." +:+ pretty (frac / 10)%Z
  +:+ (if (frac mod 10 =? 0)%Z then "" else pretty (frac mod 10)%Z).
Definition str_set (seed : N) (s : gset string) : string :=
  "{" +:+ join ", " (map repr_str (elements s)) +:+ "}".

(** A set formatter whose order follows the hash seed. *)
Definition str_set_seeded (seed : N) (s : gset string) : string :=
  if N.even seed then str_set seed s
  else "{" +:+ join ", " (map repr_str (reverse (elements s))) +:+ "}".

Definition mkchar (t f : option string) (s : option Q) : pdfplumber.char :=
  {| pdfplumber.text := t; pdfplumber.fontname := f; pdfplumber.size := s |}.

Definition glyph_H : pdfplumber.char := mkchar (Some "H") (Some "Helvetica") (Some (12 # 1)).
Definition glyph_bare : pdfplumber.char := mkchar None None None.
Definition glyph_1004 : pdfplumber.char := mkchar (Some "a") (Some "Times") (Some (1004 # 100)).
Definition glyph_1006 : pdfplumber.char := mkchar (Some "b") (Some "Times") (Some (1006 # 100)).
Definition glyph_1001 : pdfplumber.char := mkchar (Some "c") (Some "Times") (Some (1001 # 100)).

(** Two pages of more than 100 records that agree on the first 100. *)
Definition chars_long : list pdfplumber.char := replicate 100 glyph_H ++ [glyph_1004].
Definition chars_long' : list pdfplumber.char :=
  replicate 100 glyph_H ++ [glyph_1006; glyph_bare].
Definition page_long : pdfplumber.Page :=
  {| pdfplumber.extract_text := Ok None; pdfplumber.chars := Ok chars_long |}.
Definition page_long' : pdfplumber.Page :=
  {| pdfplumber.extract_text := Ok None; pdfplumber.chars := Ok chars_long' |}.

Definition reader_hello : PyPDF2.PdfReader :=
  {| PyPDF2.pages :=
       Ok [ {| PyPDF2.extract_text := Ok "Hello World" |};
            {| PyPDF2.extract_text := Ok "second page" |} ];
     PyPDF2.metadata := Ok (Some [("/Producer", "cairo")]) |}.

Definition page_hello : pdfplumber.Page :=
  {| pdfplumber.extract_text := Ok (Some "Hello World");
     pdfplumber.chars := Ok [glyph_H; glyph_bare; glyph_1004; glyph_1006] |}.

Definition pdf_hello : pdfplumber.PDF :=
  {| pdfplumber.pages :=
       Ok [ page_hello;
            {| pdfplumber.extract_text := Ok None; pdfplumber.chars := Ok [] |} ] |}.

(** A two-page document that both libraries parse. *)
Definition world_hello : world :=
  {| fs := {[ "good-fonts.pdf" := [] ]};
     PdfReader := fun _ => Ok reader_hello;
     plumber_PDF := fun _ => Ok pdf_hello;
     hash_seed := 0 |}.

(** A scanned document: one page, no text layer. *)
Definition reader_scan : PyPDF2.PdfReader :=
  {| PyPDF2.pages := Ok [ {| PyPDF2.extract_text := Ok "" |} ];
     PyPDF2.metadata := Ok None |}.

Definition page_scan : pdfplumber.Page :=
  {| pdfplumber.extract_text := Ok None; pdfplumber.chars := Ok [] |}.

Definition world_scan : world :=
  {| fs := {[ "good-fonts.pdf" := [] ]};
     PdfReader := fun _ => Ok reader_scan;
     plumber_PDF := fun _ => Ok {| pdfplumber.pages := Ok [page_scan] |};
     hash_seed := 0 |}.

(** No file at all. *)
Definition world_empty : world :=
  {| fs := ∅;
     PdfReader := fun _ => Ok reader_hello;
     plumber_PDF := fun _ => Ok pdf_hello;
     hash_seed := 0 |}.

(** The file is there and PyPDF2 rejects it after opening. *)
Definition world_corrupt : world :=
  {| fs := {[ "good-fonts.pdf" := [] ]};
     PdfReader := fun _ =>
       Raise {| exn_is_Exception := true; exn_exit_status := 1; exn_str := "EOF marker not found" |};
     plumber_PDF := fun _ => Ok pdf_hello;
     hash_seed := 0 |}.

(** [world_hello] seen by a second run: another hash seed, and pages after
    the first that differ. *)
Definition world_hello_again : world :=
  {| fs := {[ "good-fonts.pdf" := [] ]};
     PdfReader := fun _ =>
       Ok {| PyPDF2.pages :=
               Ok [ {| PyPDF2.extract_text := Ok "Hello World" |};
                    {| PyPDF2.extract_text := Ok "another second page" |} ];
             PyPDF2.metadata := Ok (Some [("/Producer", "cairo")]) |};
     plumber_PDF := fun _ => Ok pdf_hello;
     hash_seed := 7 |}.

(** A document without pages. *)
Definition world_no_pages : world :=
  {| fs := {[ "good-fonts.pdf" := [] ]};
     PdfReader := fun _ =>
       Ok {| PyPDF2.pages := Ok []; PyPDF2.metadata := Ok (Some [("/Title", "blank")]) |};
     plumber_PDF := fun _ => Ok {| pdfplumber.pages := Ok [] |};
     hash_seed := 0 |}.

(** Both libraries open the document and fail on its first page: PyPDF2 on
    the text, pdfplumber on the character records. *)
Definition exn_decode : exn :=
  {| exn_is_Exception := true; exn_exit_status := 1; exn_str := "cannot decode page contents" |}.

Definition world_bad_page : world :=
  {| fs := {[ "good-fonts.pdf" := [] ]};
     PdfReader := fun _ =>
       Ok {| PyPDF2.pages := Ok [ {| PyPDF2.extract_text := Raise exn_decode |} ];
             PyPDF2.metadata := Ok (Some [("/Producer", "cairo"); ("/Author", "me")]) |};
     plumber_PDF := fun _ =>
       Ok {| pdfplumber.pages :=
               Ok [ {| pdfplumber.extract_text := Ok (Some "Hello World");
                       pdfplumber.chars := Raise exn_decode |} ] |};
     hash_seed := 0 |}.

(** Neither library accepts the file. *)
Definition exn_eof : exn :=
  {| exn_is_Exception := true; exn_exit_status := 1; exn_str := "EOF marker not found" |}.
Definition exn_syntax : exn :=
  {| exn_is_Exception := true; exn_exit_status := 1; exn_str := "No /Root object! - Is this really a PDF?" |}.

Definition world_garbage : world :=
  {| fs := {[ "good-fonts.pdf" := [] ]};
     PdfReader := fun _ => Raise exn_eof;
     plumber_PDF := fun _ => Raise exn_syntax;
     hash_seed := 0 |}.

(** The user interrupts the run while PyPDF2 reads the file. *)
Definition KeyboardInterrupt : exn :=
  {| exn_is_Exception := false; exn_exit_status := 130; exn_str := "" |}.

Definition world_interrupted : world :=
  {| fs := {[ "good-fonts.pdf" := [] ]};
     PdfReader := fun _ => Raise KeyboardInterrupt;
     plumber_PDF := fun _ => Ok pdf_hello;
     hash_seed := 0 |}.

(** A page with text and no character records. *)
Definition page_text_only : pdfplumber.Page :=
  {| pdfplumber.extract_text := Ok (Some "Hello World"); pdfplumber.chars := Ok [] |}.

Definition world_text_only : world :=
  {| fs := {[ "good-fonts.pdf" := [] ]};
     PdfReader := fun _ => Ok reader_hello;
     plumber_PDF := fun _ => Ok {| pdfplumber.pages := Ok [page_text_only] |};
     hash_seed := 0 |}.

(** Both libraries parse the file and count its pages differently: PyPDF2
    finds two, pdfplumber three. *)
Definition world_disagree : world :=
  {| fs := {[ "good-fonts.pdf" := [] ]};
     PdfReader := fun _ => Ok reader_hello;
     plumber_PDF := fun _ =>
       Ok {| pdfplumber.pages := Ok [page_hello; page_scan; page_scan] |};
     hash_seed := 0 |}.

(** A page with text and more than five character records. *)
Definition world_long : world :=
  {| fs := {[ "good-fonts.pdf" := [] ]};
     PdfReader := fun _ => Ok reader_hello;
     plumber_PDF := fun _ =>
       Ok {| pdfplumber.pages :=
               Ok [ {| pdfplumber.extract_text := Ok (Some "Hello World");
                       pdfplumber.chars := Ok chars_long |} ] |};
     hash_seed := 0 |}.

(** A page whose only record has none of the three keys. *)
Definition page_bare : pdfplumber.Page :=
  {| pdfplumber.extract_text := Ok None; pdfplumber.chars := Ok [glyph_bare] |}.

End Examples.

(** ** The script *)

Section Script.

(** [repr(s)] of a [str], [str(x)] of a float of exact value [x], and
    [str(s)] of a set of [str] under a hash seed.  (In CPython the order of
    a printed set also follows the order of insertion; the statements below
    that compare two printed sets compare runs that add the same names in
    the same order.) *)
Variable repr_str : string -> string.
Variable str_float : Q -> string.
Variable str_set : N -> gset string -> string.

(** [str(l)] of a list of floats. *)
Definition str_float_list (l : list Q) : string :=
  "[" +:+ join ", " (map str_float l) +:+ "]".

(** The [FileNotFoundError] that opening a missing [path] raises. *)
Definition FileNotFoundError (path : string) : exn :=
  {| exn_is_Exception := true; exn_exit_status := 1;
     exn_str := "[Errno 2] No such file or directory: " +:+ repr_str path |}.

(** [open(path, 'rb')]. *)
Definition open_rb (w : world) (path : string) : M file_object := fun hs =>
  match fs w !! path with
  | Some data =>
      MkOutcome [] (FileObject path :: hs) (Ok {| name := path; content := data |})
  | None => MkOutcome [] hs (Raise (FileNotFoundError path))
  end.

(** The file object's [__exit__]: it closes the file. *)
Definition file_exit (f : file_object) (hs : list handle) : list handle :=
  close_handle (FileObject (name f)) hs.

(** [pdfplumber.open(path)]: it opens the file with [open(path, 'rb')] and
    parses it.  When parsing raises, pdfplumber closes its stream. *)
Definition pdfplumber_open (w : world) (path : string) : M pdfplumber.open_PDF := fun hs =>
  match fs w !! path with
  | Some data =>
      match plumber_PDF w data with
      | Ok d =>
          MkOutcome [] (PlumberPDF path :: hs)
            (Ok {| pdfplumber.path := path; pdfplumber.doc := d |})
      | Raise e => MkOutcome [] hs (Raise e)
      end
  | None => MkOutcome [] hs (Raise (FileNotFoundError path))
  end.

(** The document's [__exit__]: it closes the document and its stream. *)
Definition PDF_exit (p : pdfplumber.open_PDF) (hs : list handle) : list handle :=
  close_handle (PlumberPDF (pdfplumber.path p)) hs.

(** *** Phase 1 (lines 9-28) *)

(** Truth value of [pdf_reader.metadata]: neither [None] nor empty. *)
Definition metadata_truthy (md : option (list (string * string))) : bool :=
  match md with
  | Some (_ :: _) => true
  | _ => false
  end.

(** [pdf_reader.metadata.items()]. *)
Definition items (md : option (list (string * string))) : result (list (string * string)) :=
  match md with
  | Some kvs => Ok kvs
  | None =>
      Raise {| exn_is_Exception := true; exn_exit_status := 1;
               exn_str := "'NoneType' object has no attribute 'items'" |}
  end.

(** Lines 16-19: the metadata, when there is some. *)
Definition report_metadata (pdf_reader : PyPDF2.PdfReader) : M unit :=
  md <- call (PyPDF2.metadata pdf_reader) ;;
  if metadata_truthy md then
    print (newline +:+ "PDF Metadata:") ;;
    md' <- call (PyPDF2.metadata pdf_reader) ;;
    kvs <- call (items md') ;;
    for_ kvs (fun '(key, value) => print ("  " +:+ key +:+ ": " +:+ value))
  else ret tt.

(** Lines 22-25: the text of the first page, when there is a page. *)
Definition report_first_page (pdf_reader : PyPDF2.PdfReader) : M unit :=
  pages <- call (PyPDF2.pages pdf_reader) ;;
  if (0 <? length pages)%nat then
    pages <- call (PyPDF2.pages pdf_reader) ;;
    page <- call (index0 pages) ;;
    text <- call (PyPDF2.extract_text page) ;;
    print (newline +:+ "First 500 characters of text:" +:+ newline
           +:+ slice_to 500 text +:+ "...")
  else ret tt.

(** Lines 12-25: the body of [with open(pdf_path, 'rb') as file]. *)
Definition phase1_body (w : world) (file : file_object) : M unit :=
  pdf_reader <- call (PdfReader w (content file)) ;;
  pages <- call (PyPDF2.pages pdf_reader) ;;
  print ("Number of pages: " +:+ pretty (length pages)) ;;
  report_metadata pdf_reader ;;
  report_first_page pdf_reader.

(** Lines 9-28. *)
Definition phase1 (w : world) (pdf_path : string) : M unit :=
  try_except
    (with_ (open_rb w pdf_path) file_exit (phase1_body w))
    (fun e => print ("PyPDF2 error: " +:+ exn_str e)).

(** The spec's reading of phase 1's resource handling: the file is left for
    the interpreter to close, so it is still open when phase 1 is over. *)
Definition phase1_leaves_file_open (w : world) (pdf_path : string) : Prop :=
  FileObject pdf_path ∈ handles (phase1 w pdf_path []).

(** *** Phase 2 (lines 32-70) *)

(** Truth value of [text]: neither [None] nor empty. *)
Definition text_truthy (text : option string) : bool :=
  match text with
  | Some (String _ _) => true
  | _ => false
  end.

(** [text[:300] + "..."]; slicing [None] raises, which the guard excludes. *)
Definition text_preview (text : option string) : result string :=
  match text with
  | Some s => Ok (slice_to 300 s +:+ "...")
  | None =>
      Raise {| exn_is_Exception := true; exn_exit_status := 1;
               exn_str := "'NoneType' object is not subscriptable" |}
  end.

(** Lines 52-59: the loop over [chars[:100]] that fills [fonts] and
    [font_sizes]. *)
Definition collect_step (acc : gset string * gset Z) (char : pdfplumber.char)
    : gset string * gset Z :=
  let '(fonts, font_sizes) := acc in
  let fonts :=
    match pdfplumber.fontname char with
    | Some f => fonts ∪ {[ f ]}
    | None => fonts
    end in
  let font_sizes :=
    match pdfplumber.size char with
    | Some s => font_sizes ∪ {[ round1 s ]}
    | None => font_sizes
    end in
  (fonts, font_sizes).

Definition collect (chars : list pdfplumber.char) : gset string * gset Z :=
  fold_left collect_step (take 100 chars) (∅, ∅).

Definition fonts (chars : list pdfplumber.char) : gset string := fst (collect chars).
Definition font_sizes (chars : list pdfplumber.char) : gset Z := snd (collect chars).

(** The list that line 62 prints: [sorted(font_sizes)]. *)
Definition sorted_font_sizes (chars : list pdfplumber.char) : list Z :=
  sorted (font_sizes chars).

(** Line 67: one line of the sample. *)
Definition sample_line (i : nat) (char : pdfplumber.char) : string :=
  "  Char " +:+ pretty i +:+ ": '" +:+ default "" (pdfplumber.text char)
  +:+ "' - Font: " +:+ default "N/A" (pdfplumber.fontname char)
  +:+ " - Size: " +:+ from_option str_float "N/A" (pdfplumber.size char).

(** Lines 65-67: [enumerate(chars[:5])] and its loop. *)
Definition sample (chars : list pdfplumber.char) : M unit :=
  print (newline +:+ "Sample character details (first 5):") ;;
  for_ (imap (fun i char => (i, char)) (take 5 chars))
       (fun '(i, char) => print (sample_line i char)).

(** Lines 49-67. *)
Definition report_chars (w : world) (page : pdfplumber.Page) : M unit :=
  chars <- call (pdfplumber.chars page) ;;
  match chars with
  | _ :: _ =>
      print (newline +:+ "Unique fonts found: " +:+ str_set (hash_seed w) (fonts chars)) ;;
      print ("Font sizes found: "
             +:+ str_float_list (map of_tenths (sorted_font_sizes chars))) ;;
      sample chars
  | [] => ret tt
  end.

(** Lines 43-46: the text preview, when there is text. *)
Definition report_text (page : pdfplumber.Page) : M unit :=
  text <- call (pdfplumber.extract_text page) ;;
  if text_truthy text then
    print (newline +:+ "Extracted text preview (first 300 chars):") ;;
    preview <- call (text_preview text) ;;
    print preview
  else ret tt.

(** Lines 35-67: the body of [with pdfplumber.open(pdf_path) as pdf]. *)
Definition phase2_body (w : world) (pdf : pdfplumber.open_PDF) : M unit :=
  print "PDF opened with pdfplumber" ;;
  pages <- call (pdfplumber.pages (pdfplumber.doc pdf)) ;;
  print ("Number of pages: " +:+ pretty (length pages)) ;;
  pages <- call (pdfplumber.pages (pdfplumber.doc pdf)) ;;
  if (0 <? length pages)%nat then
    pages <- call (pdfplumber.pages (pdfplumber.doc pdf)) ;;
    page <- call (index0 pages) ;;
    report_text page ;;
    report_chars w page
  else ret tt.

(** Lines 32-70. *)
Definition phase2 (w : world) (pdf_path : string) : M unit :=
  try_except
    (with_ (pdfplumber_open w pdf_path) PDF_exit (phase2_body w))
    (fun e => print ("pdfplumber error: " +:+ exn_str e)).

(** *** The procedure (lines 6-70) and the entry point (lines 72-73) *)

Definition analyze_pdf_fonts (w : world) (pdf_path : string) : M unit :=
  print ("Analyzing PDF: " +:+ pdf_path +:+ newline) ;;
  phase1 w pdf_path ;;
  print (newline +:+ str_mul "=" 50 +:+ newline) ;;
  phase2 w pdf_path.

Definition main (w : world) : outcome unit := analyze_pdf_fonts w "good-fonts.pdf" [].

(** The status the interpreter exits with: 0 when the script ran to its end,
    the status of the exception when one reached the top. *)
Definition exit_status (o : outcome unit) : Z :=
  match res o with
  | Ok _ => 0
  | Raise e => exn_exit_status e
  end.



(** *** What a run observes of its surroundings *)

(** The text of the first page as PyPDF2 gives it, when there is a first
    page to ask. *)
Definition first_text (ps : result (list PyPDF2.PageObject)) : option (result string) :=
  match ps with
  | Ok (page :: _) => Some (PyPDF2.extract_text page)
  | _ => None
  end.

(** What a reader returns to the script: page count, metadata, text. *)
Definition reader_view (r : PyPDF2.PdfReader)
    : result nat * result (option (list (string * string))) * option (result string) :=
  (result_map (@length _) (PyPDF2.pages r), PyPDF2.metadata r, first_text (PyPDF2.pages r)).

(** The text and the character records of the first page as pdfplumber
    gives them, when there is a first page to ask. *)
Definition first_page_view (ps : result (list pdfplumber.Page))
    : option (result (option string) * result (list pdfplumber.char)) :=
  match ps with
  | Ok (page :: _) => Some (pdfplumber.extract_text page, pdfplumber.chars page)
  | _ => None
  end.

(** What a document returns to the script: page count, text, records. *)
Definition pdf_view (d : pdfplumber.PDF)
    : result nat * option (result (option string) * result (list pdfplumber.char)) :=
  (result_map (@length _) (pdfplumber.pages d), first_page_view (pdfplumber.pages d)).

(** Everything the two libraries return to a run on [pdf_path]; [None] when
    there is no such file. *)
Definition library_returns (w : world) (pdf_path : string) :=
  match fs w !! pdf_path with
  | Some data =>
      Some (result_map reader_view (PdfReader w data),
            result_map pdf_view (plumber_PDF w data))
  | None => None
  end.


(** ** Lemmas on the builtins *)

Lemma slice_to_length n s : String.length (slice_to n s) = Nat.min n (String.length s).
Proof.
  revert s; induction n as [|n IH]; intros [|c s]; simpl; auto.
Qed.

Lemma slice_to_prefix n s : ∃ rest, s = slice_to n s +:+ rest.
Proof.
  revert s; induction n as [|n IH]; intros [|c s]; simpl; eauto.
  destruct (IH s) as [rest Hrest]. exists rest. simpl. congruence.
Qed.

Lemma slice_to_all n s : (String.length s <= n)%nat → slice_to n s = s.
Proof.
  revert s; induction n as [|n IH]; intros [|c s]; simpl; intros Hle; auto; try lia.
  f_equal. apply IH. lia.
Qed.

(** Rounding depends on the value of a rational, not on how it is written. *)
Lemma round_half_even_Qeq (q q' : Q) :
  (q == q')%Q → round_half_even q = round_half_even q'.
Proof.
  intros Heq. unfold round_half_even. rewrite (Qfloor_comp _ _ Heq).
  assert (Hfrac : (q - inject_Z (Qfloor q') == q' - inject_Z (Qfloor q'))%Q)
    by (rewrite Heq; reflexivity).
  rewrite (Qcompare_comp _ _ Hfrac (1 # 2) (1 # 2) (Qeq_refl _)). reflexivity.
Qed.

Lemma round_half_even_Z (k : Z) : round_half_even (inject_Z k) = k.
Proof.
  unfold round_half_even. rewrite Qfloor_Z.
  assert (Hfrac : (inject_Z k - inject_Z k == 0)%Q) by ring.
  rewrite (Qcompare_comp _ _ Hfrac (1 # 2) (1 # 2) (Qeq_refl _)). reflexivity.
Qed.

(** Two writings of one size round alike. *)
Lemma round1_Qeq (x y : Q) : (x == y)%Q → round1 x = round1 y.
Proof.
  intros Heq. unfold round1. apply round_half_even_Qeq. by rewrite Heq.
Qed.

(** Rounding a float that already has a whole number of tenths changes
    nothing. *)
Lemma round1_of_tenths k : round1 (of_tenths k) = k.
Proof.
  unfold round1. rewrite <- (round_half_even_Z k) at 2.
  apply round_half_even_Qeq. unfold of_tenths, Qeq. simpl. lia.
Qed.

(** The rounded value is a nearest integer. *)
Lemma round_half_even_nearest (q : Q) :
  (Qabs (q - inject_Z (round_half_even q)) <= 1 # 2)%Q.
Proof.
  unfold round_half_even.
  pose proof (Qfloor_le q) as Hlo. pose proof (Qlt_floor q) as Hhi.
  rewrite inject_Z_plus in Hhi. change (inject_Z 1) with 1%Q in Hhi.
  apply Qabs_Qle_condition.
  destruct (q - inject_Z (Qfloor q) ?= 1 # 2)%Q eqn:Hcmp.
  - apply Qeq_alt in Hcmp.
    destruct (Z.even (Qfloor q));
      [|rewrite inject_Z_plus; change (inject_Z 1) with 1%Q]; lra.
  - apply Qlt_alt in Hcmp. lra.
  - apply Qgt_alt in Hcmp. rewrite inject_Z_plus. change (inject_Z 1) with 1%Q. lra.
Qed.

(** [round(x, 1)] is within half a tenth of [x]. *)
Lemma round1_nearest (x : Q) : (Qabs (x - of_tenths (round1 x)) <= 1 # 20)%Q.
Proof.
  pose proof (round_half_even_nearest (x * 10)) as Hnear.
  apply Qabs_Qle_condition in Hnear. apply Qabs_Qle_condition.
  unfold round1. set (k := round_half_even (x * 10)) in *.
  assert (Hk : (of_tenths k == inject_Z k * (1 # 10))%Q).
  { unfold of_tenths, Qeq. simpl. lia. }
  rewrite Hk. clearbody k. lra.
Qed.

Lemma of_tenths_lt a b : (a < b)%Z → (of_tenths a < of_tenths b)%Q.
Proof. unfold of_tenths, Qlt; simpl. lia. Qed.

(** ** Lemmas on the effect monad *)

Lemma for_prints {A} (f : A → string) (body : A → M unit) l hs :
  (∀ x hs', body x hs' = MkOutcome [f x] hs' (Ok tt)) →
  for_ l body hs = MkOutcome (f <$> l) hs (Ok tt).
Proof.
  intros Hbody. induction l as [|x l IH]; simpl; [done|].
  unfold bind. rewrite Hbody. simpl. rewrite IH. reflexivity.
Qed.

Lemma bind_call_Ok {A B} (r : result A) a (k : A → M B) hs :
  r = Ok a → bind (call r) k hs = k a hs.
Proof. intros ->. unfold bind, call. simpl. by destruct (k a hs). Qed.

Lemma bind_print {B} s (k : unit → M B) hs :
  bind (print s) k hs =
    MkOutcome (s :: printed (k tt hs)) (handles (k tt hs)) (res (k tt hs)).
Proof. reflexivity. Qed.

Lemma bind_Ok {A B} (m : M A) (k : A → M B) hs lines hs' a :
  m hs = MkOutcome lines hs' (Ok a) →
  bind m k hs =
    MkOutcome (lines ++ printed (k a hs')) (handles (k a hs')) (res (k a hs')).
Proof. intros Hm. unfold bind. rewrite Hm. reflexivity. Qed.

(** What a guarded scope prints: the lines of its body, then the handler's
    line when the body raised an [Exception]. *)
Lemma printed_try_with {A} (acquire : M A) release body on_error hs hs' a :
  acquire hs = MkOutcome [] hs' (Ok a) →
  printed (try_except (with_ acquire release body)
             (λ e, print (on_error e)) hs) =
    printed (body a hs') ++
    match res (body a hs') with
    | Ok _ => []
    | Raise e => if exn_is_Exception e then [on_error e] else []
    end.
Proof.
  intros Hacq. unfold try_except, with_. rewrite Hacq. simpl.
  destruct (res (body a hs')) as [?|e]; simpl; [by rewrite app_nil_r|].
  destruct (exn_is_Exception e); simpl; [done|by rewrite app_nil_r].
Qed.

Lemma neutral_ret {A} (a : A) : neutral (ret a).
Proof. by intros hs. Qed.

Lemma neutral_call {A} (r : result A) : neutral (call r).
Proof. by intros hs. Qed.

Lemma neutral_print s : neutral (print s).
Proof. by intros hs. Qed.

Lemma neutral_bind {A B} (m : M A) (k : A → M B) :
  neutral m → (∀ a, neutral (k a)) → neutral (bind m k).
Proof.
  intros Hm Hk hs. unfold bind. pose proof (Hm hs) as Hh.
  destruct (res (m hs)); simpl; [|done].
  rewrite Hh. apply Hk.
Qed.

Lemma neutral_for {A} (l : list A) (body : A → M unit) :
  (∀ x, neutral (body x)) → neutral (for_ l body).
Proof.
  intros Hb. induction l; simpl; [apply neutral_ret|].
  apply neutral_bind; auto.
Qed.

Lemma neutral_try_except m handler :
  neutral m → (∀ e, neutral (handler e)) → neutral (try_except m handler).
Proof.
  intros Hm Hh hs. unfold try_except. pose proof (Hm hs) as Hhs.
  destruct (res (m hs)) as [|e]; [done|].
  destruct (exn_is_Exception e); [|done]. simpl. rewrite Hhs. apply Hh.
Qed.

Create HintDb neutral.
#[local] Hint Resolve neutral_ret neutral_call neutral_print neutral_bind
  neutral_for neutral_try_except : neutral.

Lemma prints_only_ret {A} P (a : A) : prints_only P (ret a).
Proof. intros hs. constructor. Qed.

Lemma prints_only_print (P : string → Prop) s : P s → prints_only P (print s).
Proof. intros Hs hs. simpl. by constructor. Qed.

Lemma prints_only_call {A B} P (r : result A) (k : A → M B) :
  (∀ a, r = Ok a → prints_only P (k a)) → prints_only P (bind (call r) k).
Proof.
  intros Hk hs. unfold bind, call; simpl.
  destruct r as [a|e]; simpl; [|constructor].
  by apply Hk.
Qed.

Lemma prints_only_bind {A B} P (m : M A) (k : A → M B) :
  prints_only P m → (∀ a, prints_only P (k a)) → prints_only P (bind m k).
Proof.
  intros Hm Hk hs. unfold bind. pose proof (Hm hs).
  destruct (res (m hs)); simpl; [|done].
  apply Forall_app; split; [done|apply Hk].
Qed.

Lemma prints_only_for {A} P (l : list A) (body : A → M unit) :
  (∀ x, prints_only P (body x)) → prints_only P (for_ l body).
Proof.
  intros Hb. induction l; simpl; [apply prints_only_ret|].
  apply prints_only_bind; auto.
Qed.

Lemma prints_only_try_except P m handler :
  prints_only P m → (∀ e, prints_only P (handler e)) →
  prints_only P (try_except m handler).
Proof.
  intros Hm Hh hs. unfold try_except. pose proof (Hm hs).
  destruct (res (m hs)) as [|e]; [done|].
  destruct (exn_is_Exception e); [|done]. simpl.
  apply Forall_app; split; [done|apply Hh].
Qed.

Lemma prints_only_with {A B} P (acquire : M A) release (body : A → M B) :
  prints_only P acquire →
  (∀ a hs, res (acquire hs) = Ok a → prints_only P (body a)) →
  prints_only P (with_ acquire release body).
Proof.
  intros Ha Hb hs. unfold with_. pose proof (Ha hs).
  destruct (res (acquire hs)) as [a|e] eqn:Hres; simpl; [|done].
  apply Forall_app; split; [done|]. eapply Hb; eauto.
Qed.

(** ** Properties of the script *)

(** The procedure's output is the banner, phase 1's lines, the separator and
    phase 2's lines, as long as phase 1 lets no exception through. *)
Lemma analyze_pdf_fonts_printed w pdf_path hs :
  res (phase1 w pdf_path hs) = Ok tt →
  printed (analyze_pdf_fonts w pdf_path hs) =
    ("Analyzing PDF: " +:+ pdf_path +:+ newline)
    :: printed (phase1 w pdf_path hs)
    ++ (newline +:+ str_mul "=" 50 +:+ newline)
    :: printed (phase2 w pdf_path (handles (phase1 w pdf_path hs))).
Proof.
  intros Hres. unfold analyze_pdf_fonts, bind. simpl.
  rewrite Hres. simpl. reflexivity.
Qed.

(** A guarded block whose handler only prints ends normally or with an
    exception that [except Exception] does not catch. *)
Lemma try_except_catches m on_error hs :
  res (try_except m (λ e, print (on_error e)) hs) = Ok tt
  ∨ ∃ e, res (try_except m (λ e, print (on_error e)) hs) = Raise e
         ∧ exn_is_Exception e = false.
Proof.
  unfold try_except. destruct (res (m hs)) as [[]|e] eqn:Hres; [by left|].
  destruct (exn_is_Exception e) eqn:Hexn; [by left|].
  right. exists e. by rewrite Hres.
Qed.

(** C1. When no file exists at the path, the run prints the banner, a
    "PyPDF2 error" line, the separator and a "pdfplumber error" line, each
    error line carrying the message of the missing-file exception; both
    phases ran, no exception leaves the procedure, and the exit status is
    0. *)
Theorem missing_file_both_phases_report w pdf_path :
  fs w !! pdf_path = None →
  analyze_pdf_fonts w pdf_path [] =
    MkOutcome
      [ "Analyzing PDF: " +:+ pdf_path +:+ newline;
        "PyPDF2 error: " +:+ exn_str (FileNotFoundError pdf_path);
        newline +:+ str_mul "=" 50 +:+ newline;
        "pdfplumber error: " +:+ exn_str (FileNotFoundError pdf_path) ]
      [] (Ok tt)
  ∧ printed (phase1 w pdf_path []) =
      [ "PyPDF2 error: " +:+ exn_str (FileNotFoundError pdf_path) ]
  ∧ printed (phase2 w pdf_path []) =
      [ "pdfplumber error: " +:+ exn_str (FileNotFoundError pdf_path) ]
  ∧ exit_status (analyze_pdf_fonts w pdf_path []) = 0%Z.
Proof.
  intros Hmissing.
  assert (H1 : phase1 w pdf_path [] =
    MkOutcome [ "PyPDF2 error: " +:+ exn_str (FileNotFoundError pdf_path) ] [] (Ok tt)).
  { unfold phase1, try_except, with_, open_rb.
    rewrite Hmissing. reflexivity. }
  assert (H2 : phase2 w pdf_path [] =
    MkOutcome [ "pdfplumber error: " +:+ exn_str (FileNotFoundError pdf_path) ] [] (Ok tt)).
  { unfold phase2, try_except, with_, pdfplumber_open.
    rewrite Hmissing. reflexivity. }
  assert (H : analyze_pdf_fonts w pdf_path [] = MkOutcome
      [ "Analyzing PDF: " +:+ pdf_path +:+ newline;
        "PyPDF2 error: " +:+ exn_str (FileNotFoundError pdf_path);
        newline +:+ str_mul "=" 50 +:+ newline;
        "pdfplumber error: " +:+ exn_str (FileNotFoundError pdf_path) ]
      [] (Ok tt)).
  { unfold analyze_pdf_fonts, bind. simpl.
    rewrite H1. simpl. rewrite H2. reflexivity. }
  rewrite H, H1, H2. repeat split.
Qed.

(** *** The blocks of each phase on the paths where the libraries return *)

#[local] Arguments for_ : simpl never.

Lemma report_metadata_ok r md hs :
  PyPDF2.metadata r = Ok md →
  ∃ lines, report_metadata r hs = MkOutcome lines hs (Ok tt).
Proof.
  intros Hmd. unfold report_metadata, bind, call; simpl. rewrite Hmd; simpl.
  destruct md as [[|kv kvs]|]; simpl; eauto.
  rewrite (for_prints (λ '(key, value), "  " +:+ key +:+ ": " +:+ value)).
  - simpl. eauto.
  - by intros [key value] hs'.
Qed.

Lemma report_first_page_ok r page rest text hs :
  PyPDF2.pages r = Ok (page :: rest) →
  PyPDF2.extract_text page = Ok text →
  report_first_page r hs =
    MkOutcome [ newline +:+ "First 500 characters of text:" +:+ newline
                +:+ slice_to 500 text +:+ "..." ] hs (Ok tt).
Proof.
  intros Hpages Htext. unfold report_first_page, bind, call; simpl.
  rewrite Hpages; simpl. rewrite Htext; simpl. reflexivity.
Qed.

Lemma phase1_ok w pdf_path data r ps md hs :
  fs w !! pdf_path = Some data →
  PdfReader w data = Ok r →
  PyPDF2.pages r = Ok ps →
  PyPDF2.metadata r = Ok md →
  res (report_first_page r hs) = Ok tt →
  ∃ lines,
    phase1 w pdf_path hs =
      MkOutcome (("Number of pages: " +:+ pretty (length ps)) :: lines
                 ++ printed (report_first_page r (FileObject pdf_path :: hs)))
                hs (Ok tt).
Proof.
  intros Hfs Hr Hps Hmd Hres.
  destruct (report_metadata_ok r md (FileObject pdf_path :: hs) Hmd) as [lines Hlines].
  exists lines.
  assert (Hneutral : neutral (report_first_page r)).
  { unfold report_first_page. destruct (PyPDF2.pages r) as [ps'|e].
    - apply neutral_bind; [apply neutral_call|]. intros ps''.
      destruct (0 <? length ps'')%nat; auto 10 with neutral.
    - apply neutral_bind; [apply neutral_call|]. intros ps''.
      destruct (0 <? length ps'')%nat; auto 10 with neutral. }
  assert (Hsame : ∀ hs', res (report_first_page r hs') = res (report_first_page r hs)).
  { intros hs'. unfold report_first_page, bind, call; simpl.
    destruct (PyPDF2.pages r) as [[|page rest]|e]; simpl; try done.
    destruct (PyPDF2.extract_text page); done. }
  unfold phase1, try_except, with_, open_rb. rewrite Hfs. simpl.
  unfold phase1_body, bind, call. simpl. rewrite Hr. simpl. rewrite Hps. simpl.
  rewrite Hlines. simpl. rewrite Hsame, Hres. simpl.
  rewrite Hneutral. simpl.
  unfold file_exit. simpl. rewrite decide_True by done. reflexivity.
Qed.

Lemma report_text_falsy page t hs :
  pdfplumber.extract_text page = Ok t →
  text_truthy t = false →
  report_text page hs = MkOutcome [] hs (Ok tt).
Proof.
  intros Ht Hfalsy. unfold report_text, bind, call; simpl. rewrite Ht; simpl.
  rewrite Hfalsy. reflexivity.
Qed.

Lemma report_text_truthy page text hs :
  pdfplumber.extract_text page = Ok (Some text) →
  text ≠ "" →
  report_text page hs =
    MkOutcome [ newline +:+ "Extracted text preview (first 300 chars):";
                slice_to 300 text +:+ "..." ] hs (Ok tt).
Proof.
  intros Ht Hne. unfold report_text, bind, call; simpl. rewrite Ht; simpl.
  destruct text as [|c text]; [done|]. reflexivity.
Qed.

Lemma phase2_body_first_page w pdf page rest hs :
  pdfplumber.pages (pdfplumber.doc pdf) = Ok (page :: rest) →
  phase2_body w pdf hs =
    (print "PDF opened with pdfplumber" ;;
     print ("Number of pages: " +:+ pretty (S (length rest))) ;;
     report_text page ;;
     report_chars w page) hs.
Proof.
  intros Hpages. unfold phase2_body, bind, call, print; simpl.
  rewrite Hpages; simpl. reflexivity.
Qed.

#[local] Arguments phase2_body : simpl never.
#[local] Arguments report_chars : simpl never.
#[local] Arguments report_text : simpl never.

Lemma report_chars_prints_only (P : string → Prop) w page :
  (∀ x, P (newline +:+ "Unique fonts found: " +:+ x)) →
  (∀ x, P ("Font sizes found: " +:+ x)) →
  P (newline +:+ "Sample character details (first 5):") →
  (∀ i c, P (sample_line i c)) →
  prints_only P (report_chars w page).
Proof.
  intros Hfonts Hsizes Hhead Hline. unfold report_chars.
  apply prints_only_call. intros cs _. destruct cs as [|c cs].
  - apply prints_only_ret.
  - apply prints_only_bind; [by apply prints_only_print|intros _].
    apply prints_only_bind; [by apply prints_only_print|intros _].
    unfold sample.
    apply prints_only_bind; [by apply prints_only_print|intros _].
    apply prints_only_for. intros [i c']. by apply prints_only_print.
Qed.

(** C2. A first page without extractable text: phase 1 ends with the
    "First 500 characters" line whose preview is the empty string followed
    by "...", and phase 2 prints neither the text-preview header nor a
    preview. *)
Theorem no_text_on_first_page w pdf_path data reader page1 rest1 md pdf page2 rest2 t hs :
  fs w !! pdf_path = Some data →
  PdfReader w data = Ok reader →
  PyPDF2.pages reader = Ok (page1 :: rest1) →
  PyPDF2.metadata reader = Ok md →
  PyPDF2.extract_text page1 = Ok "" →
  plumber_PDF w data = Ok pdf →
  pdfplumber.pages pdf = Ok (page2 :: rest2) →
  pdfplumber.extract_text page2 = Ok t →
  t = None ∨ t = Some "" →
  (∃ before,
      printed (phase1 w pdf_path hs) =
        before ++ [ newline +:+ "First 500 characters of text:" +:+ newline
                    +:+ "" +:+ "..." ])
  ∧ ¬ (newline +:+ "Extracted text preview (first 300 chars):"
       ∈ printed (phase2 w pdf_path hs))
  ∧ ¬ ("..." ∈ printed (phase2 w pdf_path hs)).
Proof.
  intros Hfs Hr Hps Hmd Htext Hpdf Hpages Ht Hfalsy. split.
  - destruct (phase1_ok w pdf_path data reader _ md hs Hfs Hr Hps Hmd) as [lines Hlines].
    { by rewrite (report_first_page_ok _ _ _ _ _ Hps Htext). }
    rewrite Hlines, (report_first_page_ok _ _ _ _ _ Hps Htext). simpl.
    by exists (("Number of pages: " +:+ pretty (S (length rest1))) :: lines).
  - set (P := λ l : string,
        l ≠ newline +:+ "Extracted text preview (first 300 chars):" ∧ l ≠ "...").
    assert (Hall : prints_only P (phase2 w pdf_path)).
    { unfold phase2. apply prints_only_try_except.
      - apply prints_only_with.
        + intros hs'. unfold pdfplumber_open. repeat case_match; constructor.
        + intros a hs' Hacq. unfold pdfplumber_open in Hacq.
          rewrite Hfs, Hpdf in Hacq. simpl in Hacq. injection Hacq as <-.
          intros hs''.
          rewrite (phase2_body_first_page w _ page2 rest2) by done.
          revert hs''. apply prints_only_bind; [|intros _].
          { apply prints_only_print. by split. }
          apply prints_only_bind; [|intros _].
          { apply prints_only_print. by split. }
          apply prints_only_bind; [|intros _].
          { intros hs''. rewrite (report_text_falsy page2 t); [constructor|done|].
            by destruct Hfalsy as [-> | ->]. }
          apply report_chars_prints_only; intros; by split.
      - intros e. apply prints_only_print. by split. }
    specialize (Hall hs). rewrite Forall_forall in Hall.
    split; intros Hin; apply Hall in Hin; destruct Hin as [? ?]; congruence.
Qed.

(** C7. With a first page, phase 1 ends with the "First 500 characters"
    line: the first 500 characters of the page's text (the whole text when
    it has at most 500) followed by "...".  With a non-empty text, phase 2
    prints, after the page count, the preview header and then the first
    300 characters of the text followed by "...". *)
Theorem text_previews w pdf_path data reader page1 rest1 md text1
    pdf page2 rest2 text2 hs :
  fs w !! pdf_path = Some data →
  PdfReader w data = Ok reader →
  PyPDF2.pages reader = Ok (page1 :: rest1) →
  PyPDF2.metadata reader = Ok md →
  PyPDF2.extract_text page1 = Ok text1 →
  plumber_PDF w data = Ok pdf →
  pdfplumber.pages pdf = Ok (page2 :: rest2) →
  pdfplumber.extract_text page2 = Ok (Some text2) →
  text2 ≠ "" →
  (∃ before,
      printed (phase1 w pdf_path hs) =
        before ++ [ newline +:+ "First 500 characters of text:" +:+ newline
                    +:+ slice_to 500 text1 +:+ "..." ])
  ∧ (∃ after,
      printed (phase2 w pdf_path hs) =
        "PDF opened with pdfplumber"
        :: ("Number of pages: " +:+ pretty (S (length rest2)))
        :: (newline +:+ "Extracted text preview (first 300 chars):")
        :: (slice_to 300 text2 +:+ "...")
        :: after)
  ∧ (∀ n text,
      String.length (slice_to n text) = Nat.min n (String.length text)
      ∧ (∃ rest, text = slice_to n text +:+ rest)
      ∧ (String.length text ≤ n → slice_to n text = text)).
Proof.
  intros Hfs Hr Hps Hmd Htext1 Hpdf Hpages Htext2 Hne. split; [|split].
  - destruct (phase1_ok w pdf_path data reader _ md hs Hfs Hr Hps Hmd) as [lines Hlines].
    { by rewrite (report_first_page_ok _ _ _ _ _ Hps Htext1). }
    rewrite Hlines, (report_first_page_ok _ _ _ _ _ Hps Htext1). simpl.
    by exists (("Number of pages: " +:+ pretty (S (length rest1))) :: lines).
  - unfold phase2.
    erewrite printed_try_with
      by (unfold pdfplumber_open; rewrite Hfs, Hpdf; reflexivity).
    rewrite (phase2_body_first_page w _ page2 rest2) by done.
    rewrite !bind_print. simpl.
    erewrite bind_Ok by (by apply report_text_truthy).
    simpl. eauto.
  - intros n text.
    auto using slice_to_length, slice_to_prefix, slice_to_all.
Qed.

(** *** Resources *)

Ltac neutral_step :=
  first
    [ apply neutral_ret | apply neutral_call | apply neutral_print
    | apply neutral_for; intros [? ?]
    | apply neutral_bind; [|intros ?]
    | match goal with
      | |- neutral (if ?b then _ else _) => destruct b
      | |- neutral (match ?x with _ => _ end) => destruct x
      end ].

Lemma phase1_body_neutral w file : neutral (phase1_body w file).
Proof.
  unfold phase1_body, report_metadata, report_first_page. repeat neutral_step.
Qed.

Lemma phase2_body_neutral w pdf : neutral (phase2_body w pdf).
Proof.
  unfold phase2_body, report_text, report_chars, sample. repeat neutral_step.
Qed.

(** A scope gives back the handles it started with when acquiring adds one
    handle, the body is neutral and leaving the scope closes that handle. *)
Lemma scoped_neutral {A} (acquire : M A) release body handler (h : A → handle) :
  (∀ hs, match res (acquire hs) with
         | Ok a => handles (acquire hs) = h a :: hs
         | Raise _ => handles (acquire hs) = hs
         end) →
  (∀ a hs, release a hs = close_handle (h a) hs) →
  (∀ a, neutral (body a)) →
  (∀ e, neutral (handler e)) →
  neutral (try_except (with_ acquire release body) handler).
Proof.
  intros Hacq Hrel Hbody Hhandler hs.
  assert (Hwith : handles (with_ acquire release body hs) = hs).
  { unfold with_. specialize (Hacq hs).
    destruct (res (acquire hs)) as [a|e]; simpl; [|done].
    rewrite Hacq, Hbody, Hrel. simpl. by rewrite decide_True. }
  unfold try_except.
  destruct (res (with_ acquire release body hs)) as [?|e]; [done|].
  destruct (exn_is_Exception e); [|done]. simpl. rewrite Hwith. apply Hhandler.
Qed.

Lemma open_rb_acquires w pdf_path data hs :
  fs w !! pdf_path = Some data →
  open_rb w pdf_path hs =
    MkOutcome [] (FileObject pdf_path :: hs)
      (Ok {| name := pdf_path; content := data |}).
Proof. intros Hfs. unfold open_rb. by rewrite Hfs. Qed.

Lemma pdfplumber_open_acquires w pdf_path data pdf hs :
  fs w !! pdf_path = Some data →
  plumber_PDF w data = Ok pdf →
  pdfplumber_open w pdf_path hs =
    MkOutcome [] (PlumberPDF pdf_path :: hs)
      (Ok {| pdfplumber.path := pdf_path; pdfplumber.doc := pdf |}).
Proof. intros Hfs Hpdf. unfold pdfplumber_open. by rewrite Hfs, Hpdf. Qed.

(** C3 (as the code has it). Both phases hold their handle in a scope:
    whatever the libraries do, return or raise, each phase ends with exactly
    the handles that were open when it started, and so does the whole
    procedure. *)
Theorem both_phases_release_their_handle w pdf_path hs :
  handles (phase1 w pdf_path hs) = hs
  ∧ handles (phase2 w pdf_path hs) = hs
  ∧ handles (analyze_pdf_fonts w pdf_path hs) = hs.
Proof.
  assert (H1 : neutral (phase1 w pdf_path)).
  { unfold phase1.
    apply scoped_neutral with (h := λ f, FileObject (name f)).
    - intros hs'. unfold open_rb. by destruct (fs w !! pdf_path).
    - done.
    - apply phase1_body_neutral.
    - intros e. apply neutral_print. }
  assert (H2 : neutral (phase2 w pdf_path)).
  { unfold phase2.
    apply scoped_neutral with (h := λ p, PlumberPDF (pdfplumber.path p)).
    - intros hs'. unfold pdfplumber_open.
      destruct (fs w !! pdf_path); [|done]. by destruct (plumber_PDF w b).
    - done.
    - apply phase2_body_neutral.
    - intros e. apply neutral_print. }
  split; [apply H1|]. split; [apply H2|].
  unfold analyze_pdf_fonts. revert hs. change (neutral
    (print ("Analyzing PDF: " +:+ pdf_path +:+ newline) ;;
     phase1 w pdf_path ;;
     print (newline +:+ str_mul "=" 50 +:+ newline) ;;
     phase2 w pdf_path)).
  repeat (apply neutral_bind; [|intros ?]); auto using neutral_print.
Qed.

(** *** The font sets *)

Lemma collect_fold_fonts l acc f :
  f ∈ (fold_left collect_step l acc).1 ↔
  f ∈ acc.1 ∨ ∃ c, c ∈ l ∧ pdfplumber.fontname c = Some f.
Proof.
  revert acc. induction l as [|c l IH]; intros [fs0 ss0]; simpl.
  - split; [auto|]. intros [?|(c & Hc & _)]; [done|]. by apply elem_of_nil in Hc.
  - rewrite IH. simpl. split.
    + intros [Hin|(c' & Hc' & Hf)].
      * destruct (pdfplumber.fontname c) as [f'|] eqn:Hfc; [|by left].
        apply elem_of_union in Hin as [?|Hin]; [by left|].
        apply elem_of_singleton in Hin as ->. right. exists c. split; [left|done].
      * right. exists c'. split; [by right|done].
    + intros [Hin|(c' & Hc' & Hf)].
      * left. destruct (pdfplumber.fontname c); [|done]. apply elem_of_union; by left.
      * apply elem_of_cons in Hc' as [->|Hc'].
        -- left. rewrite Hf. apply elem_of_union; right. by apply elem_of_singleton.
        -- right. by exists c'.
Qed.

Lemma collect_fold_sizes l acc k :
  k ∈ (fold_left collect_step l acc).2 ↔
  k ∈ acc.2 ∨ ∃ c s, c ∈ l ∧ pdfplumber.size c = Some s ∧ k = round1 s.
Proof.
  revert acc. induction l as [|c l IH]; intros [fs0 ss0]; simpl.
  - split; [auto|]. intros [?|(c & s & Hc & _)]; [done|]. by apply elem_of_nil in Hc.
  - rewrite IH. simpl. split.
    + intros [Hin|(c' & s & Hc' & Hs)].
      * destruct (pdfplumber.size c) as [s|] eqn:Hsc; [|by left].
        apply elem_of_union in Hin as [?|Hin]; [by left|].
        apply elem_of_singleton in Hin as ->. right. exists c, s.
        split; [left|done].
      * right. exists c', s. split; [by right|done].
    + intros [Hin|(c' & s & Hc' & Hs & Hk)].
      * left. destruct (pdfplumber.size c); [|done]. apply elem_of_union; by left.
      * apply elem_of_cons in Hc' as [->|Hc'].
        -- left. rewrite Hs. apply elem_of_union; right. by apply elem_of_singleton.
        -- right. by exists c', s.
Qed.

(** [fonts] holds the font names of the records among the first 100. *)
Lemma elem_of_fonts cs f :
  f ∈ fonts cs ↔ ∃ c, c ∈ take 100 cs ∧ pdfplumber.fontname c = Some f.
Proof.
  unfold fonts, collect. rewrite collect_fold_fonts. simpl.
  split; [|by right]. intros [Hin|?]; [|done]. by apply elem_of_empty in Hin.
Qed.

(** [font_sizes] holds the rounded sizes of the records among the first 100. *)
Lemma elem_of_font_sizes cs k :
  k ∈ font_sizes cs ↔
  ∃ c s, c ∈ take 100 cs ∧ pdfplumber.size c = Some s ∧ k = round1 s.
Proof.
  unfold font_sizes, collect. rewrite collect_fold_sizes. simpl.
  split; [|by right]. intros [Hin|?]; [|done]. by apply elem_of_empty in Hin.
Qed.

(** C4 (as the code has it). Each set holds a value once.  [fonts] holds
    the font names of the first 100 records.  [font_sizes] holds their sizes
    rounded to one decimal place (the nearest tenth, within 0.05 of the
    size), so two sizes share a member exactly when they round to the same
    tenth, and no two members round to the same tenth. *)
Theorem font_sets_hold_rounded_values_once cs :
  NoDup (elements (fonts cs))
  ∧ NoDup (elements (font_sizes cs))
  ∧ (∀ f, f ∈ fonts cs ↔ ∃ c, c ∈ take 100 cs ∧ pdfplumber.fontname c = Some f)
  ∧ (∀ k, k ∈ font_sizes cs ↔
          ∃ c s, c ∈ take 100 cs ∧ pdfplumber.size c = Some s ∧ k = round1 s)
  ∧ (∀ s, (Qabs (s - of_tenths (round1 s)) <= 1 # 20)%Q)
  ∧ (∀ a b, a ∈ font_sizes cs → b ∈ font_sizes cs →
            round1 (of_tenths a) = round1 (of_tenths b) → a = b).
Proof.
  split; [apply NoDup_elements|]. split; [apply NoDup_elements|].
  split; [apply elem_of_fonts|]. split; [apply elem_of_font_sizes|].
  split; [apply round1_nearest|].
  intros a b _ _. by rewrite !round1_of_tenths.
Qed.

(** *** The sorted sizes *)

Lemma StronglySorted_le_NoDup_lt (l : list Z) :
  StronglySorted Z.le l → NoDup l → StronglySorted Z.lt l.
Proof.
  induction 1 as [|x l Hsorted IH Hall]; intros Hnodup; constructor.
  - apply IH. by apply NoDup_cons in Hnodup as [_ ?].
  - apply NoDup_cons in Hnodup as [Hnotin _].
    rewrite Forall_forall in Hall |- *. intros y Hy.
    specialize (Hall y Hy). assert (x ≠ y) by (intros ->; done). lia.
Qed.

Lemma StronglySorted_of_tenths (l : list Z) :
  StronglySorted Z.lt l → StronglySorted Qlt (map of_tenths l).
Proof.
  induction 1 as [|x l Hsorted IH Hall]; simpl; constructor; [done|].
  rewrite Forall_forall in Hall. apply Forall_forall. intros q Hq.
  apply list_elem_of_In, in_map_iff in Hq as (y & <- & Hy).
  apply of_tenths_lt, Hall. by apply list_elem_of_In.
Qed.

Lemma sorted_strictly_ascending (s : gset Z) : StronglySorted Z.lt (sorted s).
Proof.
  unfold sorted. apply StronglySorted_le_NoDup_lt.
  - apply StronglySorted_merge_sort; apply _.
  - rewrite merge_sort_Permutation. apply NoDup_elements.
Qed.

Lemma elem_of_sorted (s : gset Z) k : k ∈ sorted s ↔ k ∈ s.
Proof. unfold sorted. by rewrite merge_sort_Permutation, elem_of_elements. Qed.

Lemma font_sizes_Permutation cs cs' :
  take 100 cs ≡ₚ take 100 cs' → font_sizes cs = font_sizes cs'.
Proof.
  intros Hperm. apply set_eq. intros k. rewrite !elem_of_font_sizes.
  by setoid_rewrite Hperm.
Qed.

Lemma sample_outcome cs hs :
  sample cs hs =
    MkOutcome ((newline +:+ "Sample character details (first 5):")
               :: imap sample_line (take 5 cs)) hs (Ok tt).
Proof.
  unfold sample, bind, print. simpl.
  rewrite (for_prints (λ '(i, char), sample_line i char)).
  - simpl. rewrite fmap_imap. reflexivity.
  - by intros [i char] hs'.
Qed.

Lemma report_chars_outcome w page cs hs :
  pdfplumber.chars page = Ok cs →
  cs ≠ [] →
  report_chars w page hs =
    MkOutcome
      ((newline +:+ "Unique fonts found: " +:+ str_set (hash_seed w) (fonts cs))
       :: ("Font sizes found: "
           +:+ str_float_list (map of_tenths (sorted_font_sizes cs)))
       :: (newline +:+ "Sample character details (first 5):")
       :: imap sample_line (take 5 cs))
      hs (Ok tt).
Proof.
  intros Hcs Hne. unfold report_chars. rewrite (bind_call_Ok _ cs) by done.
  destruct cs as [|c cs]; [done|].
  by rewrite !bind_print, sample_outcome.
Qed.

(** C5. The list that the "Font sizes found" line shows is in strictly
    ascending numeric order, holds exactly the members of the size set, and
    is the same for any other order of the records examined. *)
Theorem font_sizes_printed_ascending w page cs cs' hs :
  pdfplumber.chars page = Ok cs →
  cs ≠ [] →
  take 100 cs ≡ₚ take 100 cs' →
  printed (report_chars w page hs) !! 1%nat =
    Some ("Font sizes found: "
          +:+ str_float_list (map of_tenths (sorted_font_sizes cs)))
  ∧ StronglySorted Qlt (map of_tenths (sorted_font_sizes cs))
  ∧ (∀ k, k ∈ sorted_font_sizes cs ↔ k ∈ font_sizes cs)
  ∧ sorted_font_sizes cs = sorted_font_sizes cs'.
Proof.
  intros Hcs Hne Hperm. split; [|split; [|split]].
  - by rewrite (report_chars_outcome w page cs hs Hcs Hne).
  - apply StronglySorted_of_tenths, sorted_strictly_ascending.
  - intros k. apply elem_of_sorted.
  - unfold sorted_font_sizes. by rewrite (font_sizes_Permutation cs cs').
Qed.

(** C6. Records after the 100th change neither the font sets nor anything
    the character report prints, and the sample has one line for each of the
    first five records and no more. *)
Theorem sampling_is_bounded w page page' cs cs' hs :
  pdfplumber.chars page = Ok cs →
  pdfplumber.chars page' = Ok cs' →
  take 100 cs = take 100 cs' →
  fonts cs = fonts cs'
  ∧ font_sizes cs = font_sizes cs'
  ∧ report_chars w page hs = report_chars w page' hs
  ∧ printed (sample cs hs) =
      (newline +:+ "Sample character details (first 5):")
      :: imap sample_line (take 5 cs)
  ∧ length (imap sample_line (take 5 cs)) = Nat.min 5 (length cs).
Proof.
  intros Hcs Hcs' Htake.
  assert (Hfonts : fonts cs = fonts cs') by (unfold fonts, collect; by rewrite Htake).
  assert (Hsizes : font_sizes cs = font_sizes cs')
    by (unfold font_sizes, collect; by rewrite Htake).
  assert (Hfive : take 5 cs = take 5 cs').
  { change 5%nat with (Nat.min 5 100). by rewrite <- !take_take, Htake. }
  split; [done|]. split; [done|]. split; [|split].
  - destruct cs as [|c cs], cs' as [|c' cs']; try discriminate.
    + unfold report_chars, bind, call. simpl. by rewrite Hcs, Hcs'.
    + rewrite (report_chars_outcome w page (c :: cs)) by done.
      rewrite (report_chars_outcome w page' (c' :: cs')) by done.
      unfold sorted_font_sizes. by rewrite Hfonts, Hsizes, Hfive.
  - by rewrite sample_outcome.
  - by rewrite length_imap, length_take.
Qed.

(** *** The sample and the page counts *)

Lemma report_text_ok page t hs :
  pdfplumber.extract_text page = Ok t →
  ∃ lines, report_text page hs = MkOutcome lines hs (Ok tt).
Proof.
  intros Ht. destruct t as [[|c text]|].
  - exists []. by apply (report_text_falsy page (Some "")).
  - eexists. by apply (report_text_truthy page (String c text)).
  - exists []. by apply (report_text_falsy page None).
Qed.

(** C8. The sample is the last thing phase 2 prints: a header, then one
    line for each of the first five records, showing its index, its text or
    nothing, its font name or "N/A" and its size or "N/A". *)
Theorem sample_lines_rendering w pdf_path data pdf page rest t cs hs :
  fs w !! pdf_path = Some data →
  plumber_PDF w data = Ok pdf →
  pdfplumber.pages pdf = Ok (page :: rest) →
  pdfplumber.extract_text page = Ok t →
  pdfplumber.chars page = Ok cs →
  cs ≠ [] →
  ∃ before lines,
    printed (phase2 w pdf_path hs) =
      before ++ (newline +:+ "Sample character details (first 5):") :: lines
    ∧ length lines = Nat.min 5 (length cs)
    ∧ ∀ i c, (i < 5)%nat → cs !! i = Some c →
        lines !! i =
          Some ("  Char " +:+ pretty i +:+ ": '"
                +:+ match pdfplumber.text c with Some s => s | None => "" end
                +:+ "' - Font: "
                +:+ match pdfplumber.fontname c with Some f => f | None => "N/A" end
                +:+ " - Size: "
                +:+ match pdfplumber.size c with
                    | Some x => str_float x
                    | None => "N/A"
                    end).
Proof.
  intros Hfs Hpdf Hpages Ht Hcs Hne.
  destruct (report_text_ok page t (PlumberPDF pdf_path :: hs) Ht) as [text_lines Htext].
  assert (Hbody : phase2_body w {| pdfplumber.path := pdf_path; pdfplumber.doc := pdf |}
                    (PlumberPDF pdf_path :: hs) =
    MkOutcome
      ("PDF opened with pdfplumber"
       :: ("Number of pages: " +:+ pretty (S (length rest)))
       :: text_lines
       ++ [ newline +:+ "Unique fonts found: " +:+ str_set (hash_seed w) (fonts cs);
            "Font sizes found: "
            +:+ str_float_list (map of_tenths (sorted_font_sizes cs)) ]
       ++ (newline +:+ "Sample character details (first 5):")
       :: imap sample_line (take 5 cs))
      (PlumberPDF pdf_path :: hs) (Ok tt)).
  { rewrite (phase2_body_first_page w _ page rest) by done.
    rewrite !bind_print. rewrite (bind_Ok _ _ _ _ _ _ Htext).
    by rewrite (report_chars_outcome w page cs _ Hcs Hne). }
  exists ("PDF opened with pdfplumber"
       :: ("Number of pages: " +:+ pretty (S (length rest)))
       :: text_lines
       ++ [ newline +:+ "Unique fonts found: " +:+ str_set (hash_seed w) (fonts cs);
            "Font sizes found: "
            +:+ str_float_list (map of_tenths (sorted_font_sizes cs)) ]),
    (imap sample_line (take 5 cs)).
  split; [|split].
  - unfold phase2.
    erewrite printed_try_with by (by eapply pdfplumber_open_acquires).
    rewrite Hbody. simpl. rewrite app_nil_r. by rewrite <- !app_assoc.
  - by rewrite length_imap, length_take.
  - intros i c Hi Hc. rewrite list_lookup_imap, lookup_take_lt, Hc by done.
    simpl. unfold sample_line. by destruct c as [[?|] [?|] [?|]].
Qed.


(** *** Determinism *)

#[local] Arguments phase1_body : simpl never.

Lemma report_first_page_view r1 r2 hs :
  reader_view r1 = reader_view r2 →
  report_first_page r1 hs = report_first_page r2 hs.
Proof.
  unfold reader_view. intros [= Hcount _ Htext].
  unfold report_first_page, bind, call. simpl.
  destruct (PyPDF2.pages r1) as [[|p1 l1]|e1], (PyPDF2.pages r2) as [[|p2 l2]|e2];
    simpl in *; try discriminate; try done.
  - injection Htext as ->. reflexivity.
  - by injection Hcount as ->.
Qed.

Lemma phase1_body_view w1 w2 f1 f2 hs :
  result_map reader_view (PdfReader w1 (content f1)) =
    result_map reader_view (PdfReader w2 (content f2)) →
  phase1_body w1 f1 hs = phase1_body w2 f2 hs.
Proof.
  intros Hview. unfold phase1_body.
  destruct (PdfReader w1 (content f1)) as [r1|e1], (PdfReader w2 (content f2)) as [r2|e2];
    simpl in Hview; try discriminate.
  - injection Hview as Hcount Hmd Htext.
    assert (Hview : reader_view r1 = reader_view r2)
      by (unfold reader_view; congruence).
    rewrite (bind_call_Ok _ r1), (bind_call_Ok _ r2) by done.
    assert (Hmeta : report_metadata r1 = report_metadata r2).
    { unfold report_metadata. by rewrite Hmd. }
    destruct (PyPDF2.pages r1) as [ps1|e1], (PyPDF2.pages r2) as [ps2|e2];
      simpl in Hcount; try discriminate.
    + injection Hcount as Hcount.
      rewrite (bind_call_Ok _ ps1), (bind_call_Ok _ ps2) by done.
      rewrite !bind_print, Hcount, Hmeta. unfold bind.
      destruct (res (report_metadata r2 hs)); [|done].
      by rewrite (report_first_page_view r1 r2).
    + injection Hcount as ->. reflexivity.
  - injection Hview as ->. reflexivity.
Qed.

Lemma report_chars_view w1 w2 p1 p2 hs :
  pdfplumber.chars p1 = pdfplumber.chars p2 →
  (∀ s, str_set (hash_seed w1) s = str_set (hash_seed w2) s) →
  report_chars w1 p1 hs = report_chars w2 p2 hs.
Proof.
  intros Hcs Hset. unfold report_chars, bind, call. simpl. rewrite Hcs.
  destruct (pdfplumber.chars p2) as [[|c cs]|e]; simpl; try done.
  by rewrite Hset.
Qed.

Lemma phase2_body_view w1 w2 d1 d2 hs :
  pdf_view (pdfplumber.doc d1) = pdf_view (pdfplumber.doc d2) →
  (∀ s, str_set (hash_seed w1) s = str_set (hash_seed w2) s) →
  phase2_body w1 d1 hs = phase2_body w2 d2 hs.
Proof.
  unfold pdf_view. intros [= Hcount Hfirst] Hset.
  destruct (pdfplumber.pages (pdfplumber.doc d1)) as [[|p1 l1]|e1] eqn:H1,
           (pdfplumber.pages (pdfplumber.doc d2)) as [[|p2 l2]|e2] eqn:H2;
    simpl in *; try discriminate.
  - unfold phase2_body, bind, call. simpl. by rewrite H1, H2.
  - injection Hcount as Hcount. injection Hfirst as Htext Hchars.
    rewrite (phase2_body_first_page w1 d1 p1 l1), (phase2_body_first_page w2 d2 p2 l2)
      by done.
    assert (Ht : report_text p1 = report_text p2).
    { unfold report_text. by rewrite Htext. }
    assert (Hinner : bind (report_text p1) (λ _, report_chars w1 p1) hs =
                     bind (report_text p2) (λ _, report_chars w2 p2) hs).
    { unfold bind. rewrite Ht. destruct (res (report_text p2 hs)); [|done].
      by rewrite (report_chars_view w1 w2 p1 p2). }
    by rewrite !bind_print, Hcount, Hinner.
  - injection Hcount as ->. unfold phase2_body, bind, call. simpl. by rewrite H1, H2.
Qed.

(** C10. Two runs on the same path to which the libraries return the same
    page counts, metadata, text and character records behave alike: same
    lines printed, same result, provided the printed form of a set of
    strings is the same in both runs (it depends on the run's hash seed). *)
Theorem same_returns_same_output w1 w2 pdf_path hs :
  library_returns w1 pdf_path = library_returns w2 pdf_path →
  (∀ s, str_set (hash_seed w1) s = str_set (hash_seed w2) s) →
  analyze_pdf_fonts w1 pdf_path hs = analyze_pdf_fonts w2 pdf_path hs.
Proof.
  intros Hret Hset. unfold library_returns in Hret.
  assert (H1 : ∀ hs', phase1 w1 pdf_path hs' = phase1 w2 pdf_path hs').
  { intros hs'. unfold phase1, try_except, with_, open_rb.
    destruct (fs w1 !! pdf_path) as [d1|], (fs w2 !! pdf_path) as [d2|];
      try discriminate; [|done].
    injection Hret as Hreader _. cbn.
    by rewrite (phase1_body_view w1 w2 _ {| name := pdf_path; content := d2 |}). }
  assert (H2 : ∀ hs', phase2 w1 pdf_path hs' = phase2 w2 pdf_path hs').
  { intros hs'. unfold phase2, try_except, with_, pdfplumber_open.
    destruct (fs w1 !! pdf_path) as [d1|], (fs w2 !! pdf_path) as [d2|];
      try discriminate; [|done].
    injection Hret as _ Hpdf.
    destruct (plumber_PDF w1 d1) as [p1|e1], (plumber_PDF w2 d2) as [p2|e2];
      simpl in Hpdf; try discriminate.
    - injection Hpdf as Hcount Hfirst.
      assert (Hview : pdf_view p1 = pdf_view p2) by (unfold pdf_view; congruence).
      cbn.
      by rewrite (phase2_body_view w1 w2 _
                    {| pdfplumber.path := pdf_path; pdfplumber.doc := p2 |}).
    - by injection Hpdf as ->. }
  unfold analyze_pdf_fonts. rewrite !bind_print.
  unfold bind. rewrite H1.
  destruct (res (phase1 w2 pdf_path hs)); [|done]. simpl.
  by rewrite H2.
Qed.

(** ** Further properties: failures, empty inputs and bounds *)

Lemma bind_res_Raise {A B} (m : M A) (k : A → M B) hs e :
  res (m hs) = Raise e →
  bind m k hs = MkOutcome (printed (m hs)) (handles (m hs)) (Raise e).
Proof. intros Hres. unfold bind. by rewrite Hres. Qed.

Lemma bind_res_Ok {A B} (m : M A) (k : A → M B) hs a :
  res (m hs) = Ok a →
  bind m k hs =
    MkOutcome (printed (m hs) ++ printed (k a (handles (m hs))))
      (handles (k a (handles (m hs)))) (res (k a (handles (m hs)))).
Proof. intros Hres. unfold bind. by rewrite Hres. Qed.

(** The handles after a phase are those before it. *)
Lemma phase1_neutral w pdf_path : neutral (phase1 w pdf_path).
Proof.
  unfold phase1. apply scoped_neutral with (h := λ f, FileObject (name f)).
  - intros hs. unfold open_rb. by destruct (fs w !! pdf_path).
  - done.
  - apply phase1_body_neutral.
  - intros e. apply neutral_print.
Qed.

Lemma phase2_neutral w pdf_path : neutral (phase2 w pdf_path).
Proof.
  unfold phase2. apply scoped_neutral with (h := λ p, PlumberPDF (pdfplumber.path p)).
  - intros hs. unfold pdfplumber_open.
    destruct (fs w !! pdf_path) as [data|]; [|done]. by destruct (plumber_PDF w data).
  - done.
  - apply phase2_body_neutral.
  - intros e. apply neutral_print.
Qed.

(** The whole outcome of a guarded scope whose handler prints one line. *)
Lemma try_with_outcome {A} (acquire : M A) release body on_error hs hs' a :
  acquire hs = MkOutcome [] hs' (Ok a) →
  try_except (with_ acquire release body) (λ e, print (on_error e)) hs =
    match res (body a hs') with
    | Ok _ => MkOutcome (printed (body a hs')) (release a (handles (body a hs'))) (Ok tt)
    | Raise e =>
        if exn_is_Exception e
        then MkOutcome (printed (body a hs') ++ [on_error e])
               (release a (handles (body a hs'))) (Ok tt)
        else MkOutcome (printed (body a hs')) (release a (handles (body a hs'))) (Raise e)
    end.
Proof.
  intros Hacq. unfold try_except, with_. rewrite Hacq. simpl.
  destruct (res (body a hs')) as [[]|e]; simpl; [done|].
  by destruct (exn_is_Exception e).
Qed.

Lemma phase1_outcome w pdf_path data hs lines r :
  fs w !! pdf_path = Some data →
  phase1_body w {| name := pdf_path; content := data |} (FileObject pdf_path :: hs) =
    MkOutcome lines (FileObject pdf_path :: hs) r →
  phase1 w pdf_path hs =
    match r with
    | Ok _ => MkOutcome lines hs (Ok tt)
    | Raise e =>
        if exn_is_Exception e
        then MkOutcome (lines ++ [ "PyPDF2 error: " +:+ exn_str e ]) hs (Ok tt)
        else MkOutcome lines hs (Raise e)
    end.
Proof.
  intros Hfs Hbody. unfold phase1.
  erewrite try_with_outcome by (by eapply open_rb_acquires).
  rewrite Hbody. simpl. unfold file_exit. simpl. rewrite decide_True by done.
  destruct r as [[]|e]; [done|]. by destruct (exn_is_Exception e).
Qed.

Lemma phase2_outcome w pdf_path data pdf hs lines r :
  fs w !! pdf_path = Some data →
  plumber_PDF w data = Ok pdf →
  phase2_body w {| pdfplumber.path := pdf_path; pdfplumber.doc := pdf |}
    (PlumberPDF pdf_path :: hs) =
    MkOutcome lines (PlumberPDF pdf_path :: hs) r →
  phase2 w pdf_path hs =
    match r with
    | Ok _ => MkOutcome lines hs (Ok tt)
    | Raise e =>
        if exn_is_Exception e
        then MkOutcome (lines ++ [ "pdfplumber error: " +:+ exn_str e ]) hs (Ok tt)
        else MkOutcome lines hs (Raise e)
    end.
Proof.
  intros Hfs Hpdf Hbody. unfold phase2.
  erewrite try_with_outcome by (by eapply pdfplumber_open_acquires).
  rewrite Hbody. simpl. unfold PDF_exit. simpl. rewrite decide_True by done.
  destruct r as [[]|e]; [done|]. by destruct (exn_is_Exception e).
Qed.

Lemma report_metadata_outcome r md hs :
  PyPDF2.metadata r = Ok md →
  report_metadata r hs =
    MkOutcome
      match md with
      | Some (kv :: kvs) =>
          (newline +:+ "PDF Metadata:")
          :: ((λ '(key, value), "  " +:+ key +:+ ": " +:+ value) <$> kv :: kvs)
      | _ => []
      end hs (Ok tt).
Proof.
  intros Hmd. unfold report_metadata.
  rewrite (bind_call_Ok _ md) by done.
  destruct md as [[|kv kvs]|]; simpl; try done.
  rewrite bind_print, (bind_call_Ok _ (Some (kv :: kvs))) by done.
  rewrite (bind_call_Ok _ (kv :: kvs)) by done.
  rewrite (for_prints (λ '(key, value), "  " +:+ key +:+ ": " +:+ value)); [done|].
  by intros [key value] hs'.
Qed.

Lemma phase1_body_steps w file r ps md hs :
  PdfReader w (content file) = Ok r →
  PyPDF2.pages r = Ok ps →
  PyPDF2.metadata r = Ok md →
  phase1_body w file hs =
    MkOutcome
      (("Number of pages: " +:+ pretty (length ps))
       :: match md with
          | Some (kv :: kvs) =>
              (newline +:+ "PDF Metadata:")
              :: ((λ '(key, value), "  " +:+ key +:+ ": " +:+ value) <$> kv :: kvs)
          | _ => []
          end
       ++ printed (report_first_page r hs))
      (handles (report_first_page r hs)) (res (report_first_page r hs)).
Proof.
  intros Hr Hps Hmd. unfold phase1_body.
  rewrite (bind_call_Ok _ r), (bind_call_Ok _ ps) by done.
  rewrite bind_print. by rewrite (bind_Ok _ _ _ _ _ _ (report_metadata_outcome r md hs Hmd)).
Qed.

(** Lines 16-19. After the page count, phase 1 prints the metadata header
    and one line "  key: value" per item, in the mapping's order, when the
    metadata is a non-empty mapping. *)
Theorem metadata_lines_follow_page_count w pdf_path data r ps kv kvs hs :
  fs w !! pdf_path = Some data →
  PdfReader w data = Ok r →
  PyPDF2.pages r = Ok ps →
  PyPDF2.metadata r = Ok (Some (kv :: kvs)) →
  ∃ after,
    printed (phase1 w pdf_path hs) =
      ("Number of pages: " +:+ pretty (length ps))
      :: (newline +:+ "PDF Metadata:")
      :: ((λ '(key, value), "  " +:+ key +:+ ": " +:+ value) <$> kv :: kvs)
      ++ after.
Proof.
  intros Hfs Hr Hps Hmd. unfold phase1.
  erewrite printed_try_with by (by eapply open_rb_acquires).
  rewrite (phase1_body_steps w _ r ps (Some (kv :: kvs))) by done.
  cbn [printed res]. rewrite <- !app_comm_cons, <- app_assoc. eauto.
Qed.

Lemma report_first_page_prints_only (P : string → Prop) r :
  (∀ text, P (newline +:+ "First 500 characters of text:" +:+ newline
              +:+ slice_to 500 text +:+ "...")) →
  prints_only P (report_first_page r).
Proof.
  intros HP. unfold report_first_page. apply prints_only_call. intros ps _.
  destruct (0 <? length ps)%nat; [|apply prints_only_ret].
  apply prints_only_call. intros ? _. apply prints_only_call. intros ? _.
  apply prints_only_call. intros ? _. by apply prints_only_print.
Qed.

(** Lines 16-19. When the metadata is [None] or an empty mapping, phase 1
    prints no metadata header (and so no metadata at all), whatever else
    happens in the phase. *)
Theorem no_metadata_no_header w pdf_path data r md hs :
  fs w !! pdf_path = Some data →
  PdfReader w data = Ok r →
  PyPDF2.metadata r = Ok md →
  md = None ∨ md = Some [] →
  ¬ (newline +:+ "PDF Metadata:" ∈ printed (phase1 w pdf_path hs)).
Proof.
  intros Hfs Hr Hmd Hfalsy.
  set (P := λ l : string, l ≠ newline +:+ "PDF Metadata:").
  assert (Hall : prints_only P (phase1 w pdf_path)).
  { unfold phase1. apply prints_only_try_except.
    - apply prints_only_with.
      + intros hs'. unfold open_rb. case_match; constructor.
      + intros file hs' Hacq. unfold open_rb in Hacq. rewrite Hfs in Hacq.
        injection Hacq as <-. unfold phase1_body. simpl.
        apply prints_only_call. intros r' Hr'. assert (r' = r) as -> by congruence.
        apply prints_only_call. intros ps _.
        apply prints_only_bind; [by apply prints_only_print|intros _].
        apply prints_only_bind; [|intros _].
        * intros hs''. rewrite (report_metadata_outcome r md) by done.
          destruct Hfalsy as [-> | ->]; constructor.
        * by apply report_first_page_prints_only.
    - intros e. by apply prints_only_print. }
  intros Hin. specialize (Hall hs). rewrite Forall_forall in Hall.
  by apply Hall in Hin.
Qed.

Lemma report_first_page_raises r page rest e hs :
  PyPDF2.pages r = Ok (page :: rest) →
  PyPDF2.extract_text page = Raise e →
  report_first_page r hs = MkOutcome [] hs (Raise e).
Proof.
  intros Hps He. unfold report_first_page.
  rewrite (bind_call_Ok _ (page :: rest)) by done. simpl.
  rewrite (bind_call_Ok _ (page :: rest)) by done.
  rewrite (bind_call_Ok _ page) by done.
  unfold bind, call. simpl. by rewrite He.
Qed.

(** Lines 24 and 27-28. When extracting the first page's text raises an
    [Exception], phase 1 keeps what it printed before (page count and
    metadata), adds the "PyPDF2 error" line with the exception's message,
    closes the file and ends normally. *)
Theorem phase1_keeps_lines_before_failure w pdf_path data r page rest md e hs :
  fs w !! pdf_path = Some data →
  PdfReader w data = Ok r →
  PyPDF2.pages r = Ok (page :: rest) →
  PyPDF2.metadata r = Ok md →
  PyPDF2.extract_text page = Raise e →
  exn_is_Exception e = true →
  phase1 w pdf_path hs =
    MkOutcome
      (("Number of pages: " +:+ pretty (S (length rest)))
       :: match md with
          | Some (kv :: kvs) =>
              (newline +:+ "PDF Metadata:")
              :: ((λ '(key, value), "  " +:+ key +:+ ": " +:+ value) <$> kv :: kvs)
          | _ => []
          end
       ++ [ "PyPDF2 error: " +:+ exn_str e ])
      hs (Ok tt).
Proof.
  intros Hfs Hr Hps Hmd He Hexn.
  pose proof (phase1_body_steps w {| name := pdf_path; content := data |} r _ md
                (FileObject pdf_path :: hs) Hr Hps Hmd) as Hbody.
  rewrite (report_first_page_raises r page rest e) in Hbody by done.
  simpl in Hbody. rewrite app_nil_r in Hbody.
  rewrite (phase1_outcome w pdf_path data hs _ _ Hfs Hbody), Hexn.
  by rewrite <- app_comm_cons.
Qed.

(** Lines 49 and 69-70. When reading the first page's character records
    raises an [Exception] after a text preview was printed, phase 2 keeps
    the four lines printed so far, adds the "pdfplumber error" line, closes
    the document and ends normally. *)
Theorem phase2_keeps_lines_before_failure w pdf_path data pdf page rest text e hs :
  fs w !! pdf_path = Some data →
  plumber_PDF w data = Ok pdf →
  pdfplumber.pages pdf = Ok (page :: rest) →
  pdfplumber.extract_text page = Ok (Some text) →
  text ≠ "" →
  pdfplumber.chars page = Raise e →
  exn_is_Exception e = true →
  phase2 w pdf_path hs =
    MkOutcome
      [ "PDF opened with pdfplumber";
        "Number of pages: " +:+ pretty (S (length rest));
        newline +:+ "Extracted text preview (first 300 chars):";
        slice_to 300 text +:+ "...";
        "pdfplumber error: " +:+ exn_str e ]
      hs (Ok tt).
Proof.
  intros Hfs Hpdf Hpages Htext Hne Hchars Hexn.
  assert (Hbody : phase2_body w {| pdfplumber.path := pdf_path; pdfplumber.doc := pdf |}
                    (PlumberPDF pdf_path :: hs) =
    MkOutcome
      [ "PDF opened with pdfplumber";
        "Number of pages: " +:+ pretty (S (length rest));
        newline +:+ "Extracted text preview (first 300 chars):";
        slice_to 300 text +:+ "..." ]
      (PlumberPDF pdf_path :: hs) (Raise e)).
  { rewrite (phase2_body_first_page w _ page rest) by done.
    rewrite !bind_print.
    rewrite (bind_Ok _ _ _ _ _ _ (report_text_truthy page text _ Htext Hne)).
    unfold report_chars, bind, call. simpl. by rewrite Hchars. }
  by rewrite (phase2_outcome w pdf_path data pdf hs _ _ Hfs Hpdf Hbody), Hexn.
Qed.

(** Lines 12, 34, 27-28 and 69-70. A file that neither library accepts: each
    phase prints only its error line with the library's message, and the
    procedure ends normally with nothing left open. *)
Theorem rejected_file_reports_both_errors w pdf_path data e1 e2 hs :
  fs w !! pdf_path = Some data →
  PdfReader w data = Raise e1 →
  plumber_PDF w data = Raise e2 →
  exn_is_Exception e1 = true →
  exn_is_Exception e2 = true →
  analyze_pdf_fonts w pdf_path hs =
    MkOutcome
      [ "Analyzing PDF: " +:+ pdf_path +:+ newline;
        "PyPDF2 error: " +:+ exn_str e1;
        newline +:+ str_mul "=" 50 +:+ newline;
        "pdfplumber error: " +:+ exn_str e2 ]
      hs (Ok tt).
Proof.
  intros Hfs Hr Hpdf Hexn1 Hexn2.
  assert (H1 : phase1 w pdf_path hs =
                 MkOutcome [ "PyPDF2 error: " +:+ exn_str e1 ] hs (Ok tt)).
  { rewrite (phase1_outcome w pdf_path data hs [] (Raise e1) Hfs).
    - by rewrite Hexn1.
    - unfold phase1_body, bind, call. simpl. by rewrite Hr. }
  assert (H2 : phase2 w pdf_path hs =
                 MkOutcome [ "pdfplumber error: " +:+ exn_str e2 ] hs (Ok tt)).
  { unfold phase2, try_except, with_, pdfplumber_open.
    rewrite Hfs, Hpdf. simpl. by rewrite Hexn2. }
  unfold analyze_pdf_fonts. rewrite bind_print.
  rewrite (bind_Ok _ _ _ _ _ _ H1). rewrite bind_print. by rewrite H2.
Qed.

(** Lines 27 and 32-70. An exception that is not an [Exception] (a
    [KeyboardInterrupt], say) raised while PyPDF2 reads the file is not
    caught: the file is closed, nothing more is printed, phase 2 does not
    run, and the exception leaves the procedure, so the run ends with that
    exception's exit status. *)
Theorem non_Exception_ends_the_run w pdf_path data e hs :
  fs w !! pdf_path = Some data →
  PdfReader w data = Raise e →
  exn_is_Exception e = false →
  analyze_pdf_fonts w pdf_path hs =
    MkOutcome [ "Analyzing PDF: " +:+ pdf_path +:+ newline ] hs (Raise e)
  ∧ exit_status (analyze_pdf_fonts w pdf_path hs) = exn_exit_status e.
Proof.
  intros Hfs Hr Hexn.
  assert (H1 : phase1 w pdf_path hs = MkOutcome [] hs (Raise e)).
  { rewrite (phase1_outcome w pdf_path data hs [] (Raise e) Hfs).
    - by rewrite Hexn.
    - unfold phase1_body, bind, call. simpl. by rewrite Hr. }
  assert (H : analyze_pdf_fonts w pdf_path hs =
    MkOutcome [ "Analyzing PDF: " +:+ pdf_path +:+ newline ] hs (Raise e)).
  { unfold analyze_pdf_fonts. rewrite bind_print.
    rewrite (bind_res_Raise _ _ _ e) by (by rewrite H1). by rewrite H1. }
  by rewrite H.
Qed.

(** Lines 22 and 39. A document without pages: phase 1 prints the page
    count 0 and the metadata, phase 2 prints its opening line and the page
    count 0; neither asks for a first page, and neither fails. *)
Theorem document_without_pages w pdf_path data r md pdf hs :
  fs w !! pdf_path = Some data →
  PdfReader w data = Ok r →
  PyPDF2.pages r = Ok [] →
  PyPDF2.metadata r = Ok md →
  plumber_PDF w data = Ok pdf →
  pdfplumber.pages pdf = Ok [] →
  phase1 w pdf_path hs =
    MkOutcome
      ("Number of pages: 0"
       :: match md with
          | Some (kv :: kvs) =>
              (newline +:+ "PDF Metadata:")
              :: ((λ '(key, value), "  " +:+ key +:+ ": " +:+ value) <$> kv :: kvs)
          | _ => []
          end)
      hs (Ok tt)
  ∧ phase2 w pdf_path hs =
      MkOutcome [ "PDF opened with pdfplumber"; "Number of pages: 0" ] hs (Ok tt).
Proof.
  intros Hfs Hr Hps Hmd Hpdf Hpages. split.
  - pose proof (phase1_body_steps w {| name := pdf_path; content := data |} r _ md
                  (FileObject pdf_path :: hs) Hr Hps Hmd) as Hbody.
    assert (Hfirst : report_first_page r (FileObject pdf_path :: hs) =
                     MkOutcome [] (FileObject pdf_path :: hs) (Ok tt)).
    { unfold report_first_page. by rewrite (bind_call_Ok _ []). }
    rewrite Hfirst in Hbody. simpl in Hbody. rewrite app_nil_r in Hbody.
    by rewrite (phase1_outcome w pdf_path data hs _ _ Hfs Hbody).
  - rewrite (phase2_outcome w pdf_path data pdf hs
               [ "PDF opened with pdfplumber"; "Number of pages: 0" ] (Ok tt));
      [done..|].
    unfold phase2_body. rewrite bind_print. simpl.
    rewrite (bind_call_Ok _ []) by done. rewrite bind_print.
    by rewrite (bind_call_Ok _ []).
Qed.

(** Line 50. A first page without character records: phase 2 prints its
    opening line, the page count and the text preview if there is text, and
    then nothing: no fonts line, no sizes line, no sample. *)
Theorem page_without_chars w pdf_path data pdf page rest t hs :
  fs w !! pdf_path = Some data →
  plumber_PDF w data = Ok pdf →
  pdfplumber.pages pdf = Ok (page :: rest) →
  pdfplumber.extract_text page = Ok t →
  pdfplumber.chars page = Ok [] →
  phase2 w pdf_path hs =
    MkOutcome
      ("PDF opened with pdfplumber"
       :: ("Number of pages: " +:+ pretty (S (length rest)))
       :: match t with
          | Some (String c text) =>
              [ newline +:+ "Extracted text preview (first 300 chars):";
                slice_to 300 (String c text) +:+ "..." ]
          | _ => []
          end)
      hs (Ok tt).
Proof.
  intros Hfs Hpdf Hpages Ht Hchars.
  rewrite (phase2_outcome w pdf_path data pdf hs
             ("PDF opened with pdfplumber"
              :: ("Number of pages: " +:+ pretty (S (length rest)))
              :: match t with
                 | Some (String c text) =>
                     [ newline +:+ "Extracted text preview (first 300 chars):";
                       slice_to 300 (String c text) +:+ "..." ]
                 | _ => []
                 end) (Ok tt)); [done..|].
  rewrite (phase2_body_first_page w _ page rest) by done.
  rewrite !bind_print.
  assert (Hchars' : ∀ hs', report_chars w page hs' = MkOutcome [] hs' (Ok tt)).
  { intros hs'. unfold report_chars. by rewrite (bind_call_Ok _ []). }
  destruct t as [[|c text]|].
  - rewrite (bind_Ok _ _ _ _ _ _ (report_text_falsy page (Some "") _ Ht eq_refl)).
    by rewrite Hchars'.
  - rewrite (bind_Ok _ _ _ _ _ _
               (report_text_truthy page (String c text) _ Ht ltac:(done))).
    by rewrite Hchars'.
  - rewrite (bind_Ok _ _ _ _ _ _ (report_text_falsy page None _ Ht eq_refl)).
    by rewrite Hchars'.
Qed.

(** Lines 7, 30 and the two [try] blocks. The procedure prints the banner,
    runs phase 1, prints the separator of fifty "=" and runs phase 2 from
    the same state; it skips the separator and phase 2 only when phase 1
    lets through an exception that is not an [Exception]. *)
Theorem phases_run_in_sequence w pdf_path hs :
  (res (phase1 w pdf_path hs) = Ok tt
   ∧ printed (analyze_pdf_fonts w pdf_path hs) =
       ("Analyzing PDF: " +:+ pdf_path +:+ newline)
       :: printed (phase1 w pdf_path hs)
       ++ (newline +:+ "==================================================" +:+ newline)
       :: printed (phase2 w pdf_path hs)
   ∧ res (analyze_pdf_fonts w pdf_path hs) = res (phase2 w pdf_path hs))
  ∨ (∃ e, exn_is_Exception e = false
      ∧ res (phase1 w pdf_path hs) = Raise e
      ∧ printed (analyze_pdf_fonts w pdf_path hs) =
          ("Analyzing PDF: " +:+ pdf_path +:+ newline) :: printed (phase1 w pdf_path hs)
      ∧ res (analyze_pdf_fonts w pdf_path hs) = Raise e).
Proof.
  pose proof (phase1_neutral w pdf_path hs) as Hneutral.
  destruct (try_except_catches
              (with_ (open_rb w pdf_path) file_exit (phase1_body w))
              (λ e, "PyPDF2 error: " +:+ exn_str e) hs) as [Hok|(e & Hraise & Hexn)];
    fold (phase1 w pdf_path) in *.
  - left. split; [done|].
    unfold analyze_pdf_fonts. rewrite bind_print.
    rewrite (bind_res_Ok _ _ _ tt) by done. rewrite bind_print, Hneutral. done.
  - right. exists e. split; [done|]. split; [done|].
    unfold analyze_pdf_fonts. rewrite bind_print.
    by rewrite (bind_res_Raise _ _ _ e).
Qed.

(** Lines 27-28 and 69-70. No [Exception] ever leaves the procedure: it
    ends normally (exit status 0), or with an exception that is not an
    [Exception]. *)
Theorem no_Exception_escapes w pdf_path hs :
  (res (analyze_pdf_fonts w pdf_path hs) = Ok tt
   ∧ exit_status (analyze_pdf_fonts w pdf_path hs) = 0%Z)
  ∨ (∃ e, res (analyze_pdf_fonts w pdf_path hs) = Raise e
      ∧ exn_is_Exception e = false).
Proof.
  assert (H2 : ∀ hs', res (phase2 w pdf_path hs') = Ok tt
                ∨ ∃ e, res (phase2 w pdf_path hs') = Raise e
                       ∧ exn_is_Exception e = false).
  { intros hs'. apply (try_except_catches _ (λ e, "pdfplumber error: " +:+ exn_str e)). }
  destruct (try_except_catches
              (with_ (open_rb w pdf_path) file_exit (phase1_body w))
              (λ e, "PyPDF2 error: " +:+ exn_str e) hs) as [Hok|(e & Hraise & Hexn)];
    fold (phase1 w pdf_path) in *.
  - assert (Hres : res (analyze_pdf_fonts w pdf_path hs) =
                   res (phase2 w pdf_path (handles (phase1 w pdf_path hs)))).
    { unfold analyze_pdf_fonts. rewrite bind_print.
      rewrite (bind_res_Ok _ _ _ tt) by done. by rewrite bind_print. }
    unfold exit_status. rewrite Hres.
    destruct (H2 (handles (phase1 w pdf_path hs))) as [->|(e & -> & Hexn)]; [by left|].
    right. by exists e.
  - right. exists e. split; [|done].
    unfold analyze_pdf_fonts. rewrite bind_print.
    by rewrite (bind_res_Raise _ _ _ e).
Qed.

(** *** More on the font sets *)

(** Lines 52-59. The two sets depend only on which records are among the
    first 100, not on their order or on how often a record occurs. *)
Theorem font_sets_ignore_order_and_repeats cs cs' :
  (∀ c, c ∈ take 100 cs ↔ c ∈ take 100 cs') →
  fonts cs = fonts cs'
  ∧ font_sizes cs = font_sizes cs'
  ∧ sorted_font_sizes cs = sorted_font_sizes cs'.
Proof.
  intros Hsame.
  assert (Hfonts : fonts cs = fonts cs').
  { apply set_eq. intros f. rewrite !elem_of_fonts.
    split; intros (c & Hc & Hf); exists c; split; try done; by apply Hsame. }
  assert (Hsizes : font_sizes cs = font_sizes cs').
  { apply set_eq. intros k. rewrite !elem_of_font_sizes.
    split; intros (c & x & Hc & Hx); exists c, x; split; try done; by apply Hsame. }
  unfold sorted_font_sizes. by rewrite Hfonts, Hsizes.
Qed.

(** Lines 56 and 58. A record without the key contributes nothing: the
    font set is empty exactly when none of the first 100 records has a
    [fontname], and the size set is empty exactly when none has a [size]. *)
Theorem font_sets_empty_iff_keys_missing cs :
  (fonts cs = ∅ ↔ ∀ c, c ∈ take 100 cs → pdfplumber.fontname c = None)
  ∧ (font_sizes cs = ∅ ↔ ∀ c, c ∈ take 100 cs → pdfplumber.size c = None)
  ∧ (sorted_font_sizes cs = [] ↔ ∀ c, c ∈ take 100 cs → pdfplumber.size c = None).
Proof.
  assert (Hsizes : font_sizes cs = ∅ ↔
                   ∀ c, c ∈ take 100 cs → pdfplumber.size c = None).
  { split.
    - intros Hempty c Hc. destruct (pdfplumber.size c) as [x|] eqn:Hx; [|done].
      assert (Hin : round1 x ∈ font_sizes cs) by (apply elem_of_font_sizes; eauto).
      rewrite Hempty in Hin. by apply elem_of_empty in Hin.
    - intros Hnone. apply set_eq. intros k. rewrite elem_of_font_sizes. split.
      + intros (c & x & Hc & Hx & _). rewrite (Hnone c Hc) in Hx. done.
      + intros Hin. by apply elem_of_empty in Hin. }
  split; [|split; [done|]].
  - split.
    + intros Hempty c Hc. destruct (pdfplumber.fontname c) as [f|] eqn:Hf; [|done].
      assert (Hin : f ∈ fonts cs) by (apply elem_of_fonts; eauto).
      rewrite Hempty in Hin. by apply elem_of_empty in Hin.
    + intros Hnone. apply set_eq. intros f. rewrite elem_of_fonts. split.
      * intros (c & Hc & Hf). rewrite (Hnone c Hc) in Hf. done.
      * intros Hin. by apply elem_of_empty in Hin.
  - rewrite <- Hsizes. unfold sorted_font_sizes, sorted. split.
    + intros Hnil. apply leibniz_equiv, elements_empty_iff.
      apply Permutation_nil_r. by rewrite <- Hnil, merge_sort_Permutation.
    + intros ->. by rewrite elements_empty.
Qed.

(** Lines 58-62. When none of the first 100 records has a [size], the sizes
    line shows the empty list. *)
Theorem sizes_line_without_sizes w page cs hs :
  pdfplumber.chars page = Ok cs →
  cs ≠ [] →
  (∀ c, c ∈ take 100 cs → pdfplumber.size c = None) →
  printed (report_chars w page hs) !! 1%nat = Some "Font sizes found: []".
Proof.
  intros Hcs Hne Hnone. rewrite (report_chars_outcome w page cs hs Hcs Hne). simpl.
  assert (Hempty : font_sizes cs = ∅).
  { apply set_eq. intros k. rewrite elem_of_font_sizes. split.
    - intros (c & x & Hc & Hx & _). rewrite (Hnone c Hc) in Hx. done.
    - intros Hin. by apply elem_of_empty in Hin. }
  unfold sorted_font_sizes, sorted. rewrite Hempty, elements_empty. reflexivity.
Qed.

Lemma size_add_le `{Countable K} (X : gset K) (x : K) : size (X ∪ {[ x ]}) ≤ S (size X).
Proof.
  rewrite size_union_alt.
  assert (size ({[ x ]} ∖ X) ≤ 1); [|lia].
  rewrite <- (size_singleton (C := gset K) x). apply subseteq_size.
  intros y Hy. by apply elem_of_difference in Hy as [? _].
Qed.

Lemma collect_fold_size l acc :
  size (fold_left collect_step l acc).1 ≤ size acc.1 + length l
  ∧ size (fold_left collect_step l acc).2 ≤ size acc.2 + length l.
Proof.
  revert acc. induction l as [|c l IH]; intros [fs0 ss0]; simpl; [lia|].
  destruct (IH (collect_step (fs0, ss0) c)) as [IH1 IH2]. simpl in IH1, IH2.
  split.
  - etrans; [exact IH1|]. destruct (pdfplumber.fontname c); simpl.
    + pose proof (size_add_le fs0 s). lia.
    + lia.
  - etrans; [exact IH2|]. destruct (pdfplumber.size c); simpl.
    + pose proof (size_add_le ss0 (round1 q)). lia.
    + lia.
Qed.

(** Lines 55-62. However many records the page has, each set has at most
    100 members, at most one per record examined, and the sizes line lists
    each member of the size set once. *)
Theorem font_sets_have_at_most_100_members cs :
  size (fonts cs) ≤ Nat.min 100 (length cs)
  ∧ size (font_sizes cs) ≤ Nat.min 100 (length cs)
  ∧ length (sorted_font_sizes cs) = size (font_sizes cs).
Proof.
  destruct (collect_fold_size (take 100 cs) (∅, ∅)) as [H1 H2].
  rewrite length_take in H1, H2. cbn [fst snd] in H1, H2.
  rewrite size_empty in H1. rewrite size_empty in H2.
  split; [exact H1|]. split; [exact H2|].
  unfold sorted_font_sizes, sorted. by rewrite merge_sort_Permutation.
Qed.

(** *** A bound on phase 2's print calls *)

Lemma report_text_raises page e hs :
  pdfplumber.extract_text page = Raise e →
  report_text page hs = MkOutcome [] hs (Raise e).
Proof. intros He. unfold report_text, bind, call. simpl. by rewrite He. Qed.

Lemma report_chars_raises w page e hs :
  pdfplumber.chars page = Raise e →
  report_chars w page hs = MkOutcome [] hs (Raise e).
Proof. intros He. unfold report_chars, bind, call. simpl. by rewrite He. Qed.

Lemma report_chars_empty w page hs :
  pdfplumber.chars page = Ok [] →
  report_chars w page hs = MkOutcome [] hs (Ok tt).
Proof. intros Hcs. unfold report_chars. by rewrite (bind_call_Ok _ []). Qed.

(** The body of phase 2 calls [print] at most 12 times, and at most 4 times
    when it raises. *)
Lemma phase2_body_print_calls w pdf hs :
  length (printed (phase2_body w pdf hs)) ≤ 12
  ∧ (∀ e, res (phase2_body w pdf hs) = Raise e →
          length (printed (phase2_body w pdf hs)) ≤ 4).
Proof.
  destruct (pdfplumber.pages (pdfplumber.doc pdf)) as [[|page rest]|e] eqn:Hpages.
  - unfold phase2_body. rewrite bind_print, (bind_call_Ok _ []) by done.
    rewrite bind_print, (bind_call_Ok _ []) by done. simpl. split; [lia|done].
  - rewrite (phase2_body_first_page w pdf page rest) by done. rewrite !bind_print.
    assert (Hchars : ∀ hs', length (printed (report_chars w page hs')) ≤ 8
                      ∧ (∀ e, res (report_chars w page hs') = Raise e →
                              printed (report_chars w page hs') = [])).
    { intros hs'. destruct (pdfplumber.chars page) as [[|c cs]|e] eqn:Hcs.
      - rewrite report_chars_empty by done. simpl. split; [lia|done].
      - rewrite (report_chars_outcome w page (c :: cs)) by done.
        cbn [printed res length]. rewrite length_imap, length_take.
        split; [lia|done].
      - rewrite (report_chars_raises w page e) by done. simpl. split; [lia|done]. }
    destruct (pdfplumber.extract_text page) as [[[|c text]|]|e] eqn:Htext.
    + rewrite (bind_Ok _ _ _ _ _ _ (report_text_falsy page (Some "") _ Htext eq_refl)).
      cbn [printed res length app]. destruct (Hchars hs) as [Hlen Hraise].
      split; [lia|]. intros e He. rewrite (Hraise e He). simpl. lia.
    + rewrite (bind_Ok _ _ _ _ _ _
                 (report_text_truthy page (String c text) _ Htext ltac:(done))).
      cbn [printed res length app]. destruct (Hchars hs) as [Hlen Hraise].
      split; [lia|]. intros e He. rewrite (Hraise e He). simpl. lia.
    + rewrite (bind_Ok _ _ _ _ _ _ (report_text_falsy page None _ Htext eq_refl)).
      cbn [printed res length app]. destruct (Hchars hs) as [Hlen Hraise].
      split; [lia|]. intros e He. rewrite (Hraise e He). simpl. lia.
    + rewrite (bind_res_Raise _ _ _ e) by (by rewrite (report_text_raises page e)).
      rewrite (report_text_raises page e) by done. simpl. split; lia.
  - unfold phase2_body. rewrite bind_print.
    rewrite (bind_res_Raise _ _ _ e) by (unfold call; by simpl). simpl. split; lia.
Qed.

(** Lines 32-70. However many pages and character records the document
    has, phase 2 calls [print] at most 12 times: twice for the document,
    twice for the text, twice for the font sets, once for the sample's header
    and five times for the sample.  (A call can write several console lines:
    three arguments start with a line break, and the preview keeps the line
    breaks of the text.) *)
Theorem phase2_calls_print_at_most_12_times w pdf_path hs :
  length (printed (phase2 w pdf_path hs)) ≤ 12.
Proof.
  unfold phase2.
  destruct (fs w !! pdf_path) as [data|] eqn:Hfs.
  - destruct (plumber_PDF w data) as [pdf|e] eqn:Hpdf.
    + erewrite printed_try_with by (by eapply pdfplumber_open_acquires).
      destruct (phase2_body_print_calls w
                  {| pdfplumber.path := pdf_path; pdfplumber.doc := pdf |}
                  (PlumberPDF pdf_path :: hs)) as [Hlen Hraise].
      destruct (res (phase2_body w _ _)) as [[]|e] eqn:Hres.
      * rewrite app_nil_r. exact Hlen.
      * specialize (Hraise e eq_refl). rewrite length_app.
        destruct (exn_is_Exception e); cbn [length]; lia.
    + unfold try_except, with_, pdfplumber_open. rewrite Hfs, Hpdf. simpl.
      destruct (exn_is_Exception e); simpl; lia.
  - unfold try_except, with_, pdfplumber_open. rewrite Hfs. simpl. lia.
Qed.

End Script.

(** ** The properties on concrete surroundings *)

Module Runs.
Import Examples.

(** The report on [world_hello], line by line. *)
Example hello_world_report :
  main repr_str str_float str_set world_hello =
    MkOutcome
      [ "Analyzing PDF: good-fonts.pdf" +:+ newline;
        "Number of pages: 2";
        newline +:+ "PDF Metadata:";
        "  /Producer: cairo";
        newline +:+ "First 500 characters of text:" +:+ newline +:+ "Hello World...";
        newline +:+ str_mul "=" 50 +:+ newline;
        "PDF opened with pdfplumber";
        "Number of pages: 2";
        newline +:+ "Extracted text preview (first 300 chars):";
        "Hello World...";
        newline +:+ "Unique fonts found: {'Times', 'Helvetica'}";
        "Font sizes found: [10.0, 10.1, 12.0]";
        newline +:+ "Sample character details (first 5):";
        "  Char 0: 'H' - Font: Helvetica - Size: 12.0";
        "  Char 1: '' - Font: N/A - Size: N/A";
        "  Char 2: 'a' - Font: Times - Size: 10.04";
        "  Char 3: 'b' - Font: Times - Size: 10.06" ]
      [] (Ok tt).
Proof. vm_compute. reflexivity. Qed.

(** Rounding to one decimal place, ties to even. *)
Example round1_samples :
  round1 <$> [1004 # 100; 1006 # 100; 1001 # 100; 25 # 100; 75 # 100; 12 # 1]
  = [100; 101; 100; 2; 8; 120]%Z.
Proof. reflexivity. Qed.

(** 10.04 and 10.01 share the member 10.0. *)
Example sizes_1004_1001_collapse : font_sizes [glyph_1004; glyph_1001] = {[ 100%Z ]}.
Proof. vm_compute. reflexivity. Qed.

(** C1, witness: the run on [world_empty], where no file exists. *)
Lemma missing_file_witness :
  fs world_empty !! "good-fonts.pdf" = None
  ∧ printed (main repr_str str_float str_set world_empty) =
      [ "Analyzing PDF: good-fonts.pdf" +:+ newline;
        "PyPDF2 error: [Errno 2] No such file or directory: 'good-fonts.pdf'";
        newline +:+ str_mul "=" 50 +:+ newline;
        "pdfplumber error: [Errno 2] No such file or directory: 'good-fonts.pdf'" ]
  ∧ exit_status (main repr_str str_float str_set world_empty) = 0%Z.
Proof.
  split; [reflexivity|].
  pose proof (missing_file_both_phases_report repr_str str_float str_set
                world_empty "good-fonts.pdf" eq_refl) as (Hrun & _ & _ & Hexit).
  split; [|exact Hexit].
  unfold main. rewrite Hrun. reflexivity.
Defined.

(** C2, witness: the run on [world_scan], whose page has no text. *)
Lemma no_text_witness :
  (∃ before,
      printed (phase1 repr_str world_scan "good-fonts.pdf" []) =
        before ++ [ newline +:+ "First 500 characters of text:" +:+ newline
                    +:+ "" +:+ "..." ])
  ∧ ¬ (newline +:+ "Extracted text preview (first 300 chars):"
       ∈ printed (phase2 repr_str str_float str_set world_scan "good-fonts.pdf" []))
  ∧ ¬ ("..." ∈ printed (phase2 repr_str str_float str_set world_scan "good-fonts.pdf" [])).
Proof.
  apply (no_text_on_first_page repr_str str_float str_set world_scan "good-fonts.pdf"
           [] reader_scan {| PyPDF2.extract_text := Ok "" |} [] None
           {| pdfplumber.pages := Ok [page_scan] |} page_scan [] None []);
    first [reflexivity | by left].
Defined.

(** C3, counterexample to the spec's reading: the file is closed when phase
    1 is over, after a normal pass through the scope ([world_hello]) and
    after an exception inside it ([world_corrupt]). *)
Lemma phase1_closes_its_file :
  ¬ phase1_leaves_file_open repr_str world_hello "good-fonts.pdf"
  ∧ ¬ phase1_leaves_file_open repr_str world_corrupt "good-fonts.pdf".
Proof.
  unfold phase1_leaves_file_open.
  assert (H1 : handles (phase1 repr_str world_hello "good-fonts.pdf" []) = [])
    by reflexivity.
  assert (H2 : handles (phase1 repr_str world_corrupt "good-fonts.pdf" []) = [])
    by reflexivity.
  rewrite H1, H2. split; apply not_elem_of_nil.
Qed.

(** Inside the scope the file is open: the body starts with its handle. *)
Example phase1_scope_holds_the_file :
  handles (open_rb repr_str world_corrupt "good-fonts.pdf" []) =
    [FileObject "good-fonts.pdf"]
  ∧ res (phase1_body world_corrupt {| name := "good-fonts.pdf"; content := [] |}
           [FileObject "good-fonts.pdf"]) =
      Raise {| exn_is_Exception := true; exn_exit_status := 1; exn_str := "EOF marker not found" |}.
Proof. split; reflexivity. Qed.

(** C4, counterexample to the spec's example: 10.04 rounds to 10.0 and
    10.06 rounds to 10.1, so the set has two members, not the single 10.0. *)
Lemma sizes_1004_1006_stay_apart :
  font_sizes [glyph_1004; glyph_1006] ≠ {[ 100%Z ]}
  ∧ font_sizes [glyph_1004; glyph_1006] = {[ 100%Z; 101%Z ]}.
Proof.
  split; [|vm_compute; reflexivity].
  intros Heq. apply (f_equal elements) in Heq. vm_compute in Heq. discriminate.
Qed.

(** C5, witness: the records of [page_hello] and the same records with the
    first two swapped. *)
Lemma font_sizes_ascending_witness :
  StronglySorted Qlt (map of_tenths (sorted_font_sizes [glyph_H; glyph_bare; glyph_1004; glyph_1006]))
  ∧ sorted_font_sizes [glyph_H; glyph_bare; glyph_1004; glyph_1006] =
      sorted_font_sizes [glyph_bare; glyph_H; glyph_1004; glyph_1006].
Proof.
  pose proof (font_sizes_printed_ascending str_float str_set world_hello page_hello
                [glyph_H; glyph_bare; glyph_1004; glyph_1006]
                [glyph_bare; glyph_H; glyph_1004; glyph_1006] []
                eq_refl ltac:(discriminate) (perm_swap _ _ _))
    as (_ & Hsorted & _ & Hsame).
  exact (conj Hsorted Hsame).
Defined.

(** C6, witness: two pages of 101 and 102 records that agree on the first
    100. *)
Lemma sampling_witness :
  report_chars str_float str_set world_hello page_long [] =
    report_chars str_float str_set world_hello page_long' []
  ∧ length (imap (sample_line str_float) (take 5 chars_long)) = 5%nat.
Proof.
  pose proof (sampling_is_bounded str_float str_set world_hello page_long page_long'
                chars_long chars_long' [] eq_refl eq_refl eq_refl)
    as (_ & _ & Hreport & _ & Hlen).
  exact (conj Hreport Hlen).
Defined.

(** C7, witness: the previews of "Hello World" on [world_hello]. *)
Lemma text_previews_witness :
  (∃ before,
      printed (phase1 repr_str world_hello "good-fonts.pdf" []) =
        before ++ [ newline +:+ "First 500 characters of text:" +:+ newline
                    +:+ "Hello World" +:+ "..." ])
  ∧ (∃ after,
      printed (phase2 repr_str str_float str_set world_hello "good-fonts.pdf" []) =
        "PDF opened with pdfplumber"
        :: "Number of pages: 2"
        :: (newline +:+ "Extracted text preview (first 300 chars):")
        :: "Hello World..."
        :: after).
Proof.
  pose proof (text_previews repr_str str_float str_set world_hello "good-fonts.pdf"
                [] reader_hello {| PyPDF2.extract_text := Ok "Hello World" |} _
                (Some [("/Producer", "cairo")]) "Hello World"
                pdf_hello page_hello _ "Hello World" []
                eq_refl eq_refl eq_refl eq_refl eq_refl eq_refl eq_refl eq_refl
                ltac:(discriminate))
    as (Hphase1 & Hphase2 & _).
  exact (conj Hphase1 Hphase2).
Defined.

(** C8, witness: the sample of [world_hello]; its second record has none
    of the three fields. *)
Lemma sample_witness :
  ∃ before lines,
    printed (phase2 repr_str str_float str_set world_hello "good-fonts.pdf" []) =
      before ++ (newline +:+ "Sample character details (first 5):") :: lines
    ∧ lines !! 1%nat = Some "  Char 1: '' - Font: N/A - Size: N/A".
Proof.
  destruct (sample_lines_rendering repr_str str_float str_set world_hello
              "good-fonts.pdf" [] pdf_hello page_hello _ (Some "Hello World")
              [glyph_H; glyph_bare; glyph_1004; glyph_1006] []
              eq_refl eq_refl eq_refl eq_refl eq_refl ltac:(discriminate))
    as (before & lines & Hprinted & _ & Hline).
  exists before, lines. split; [exact Hprinted|].
  exact (Hline 1%nat glyph_bare ltac:(lia) eq_refl).
Defined.


(** What the two phases print there. *)
Example page_counts_on_world_disagree :
  printed (phase1 repr_str world_disagree "good-fonts.pdf" []) !! 0%nat =
    Some "Number of pages: 2"
  ∧ printed (phase2 repr_str str_float str_set world_disagree "good-fonts.pdf" [])
      !! 1%nat = Some "Number of pages: 3".
Proof. split; reflexivity. Qed.


(** C10, witness: [world_hello] and [world_hello_again], which differ in
    the hash seed and in the second page, under a set formatter that
    ignores the seed. *)
Lemma same_output_witness :
  analyze_pdf_fonts repr_str str_float str_set world_hello "good-fonts.pdf" [] =
    analyze_pdf_fonts repr_str str_float str_set world_hello_again "good-fonts.pdf" [].
Proof.
  apply (same_returns_same_output repr_str str_float str_set
           world_hello world_hello_again "good-fonts.pdf" []).
  - reflexivity.
  - intros s. reflexivity.
Defined.

(** Under a set formatter that follows the hash seed, the two runs differ
    in the fonts line: the proviso of C10 is needed. *)
Example fonts_line_follows_hash_seed :
  printed (analyze_pdf_fonts repr_str str_float str_set_seeded
             world_hello "good-fonts.pdf" [])
  ≠ printed (analyze_pdf_fonts repr_str str_float str_set_seeded
               world_hello_again "good-fonts.pdf" []).
Proof. intros Heq. vm_compute in Heq. discriminate. Qed.

End Runs.

(** ** The further properties on concrete surroundings *)

Module EdgeRuns.
Import Examples.

(** The metadata of [world_hello]: one item. *)
Lemma metadata_lines_witness :
  ∃ after,
    printed (phase1 repr_str world_hello "good-fonts.pdf" []) =
      "Number of pages: 2" :: (newline +:+ "PDF Metadata:")
      :: [ "  /Producer: cairo" ] ++ after.
Proof.
  exact (metadata_lines_follow_page_count repr_str world_hello "good-fonts.pdf" []
           reader_hello _ ("/Producer", "cairo") [] [] eq_refl eq_refl eq_refl eq_refl).
Defined.

(** [world_scan] has no metadata. *)
Lemma no_metadata_witness :
  ¬ (newline +:+ "PDF Metadata:" ∈ printed (phase1 repr_str world_scan "good-fonts.pdf" [])).
Proof.
  exact (no_metadata_no_header repr_str world_scan "good-fonts.pdf" [] reader_scan None []
           eq_refl eq_refl eq_refl (or_introl eq_refl)).
Defined.

(** [world_bad_page]: PyPDF2 fails on the text of the first page. *)
Lemma phase1_failure_witness :
  phase1 repr_str world_bad_page "good-fonts.pdf" [] =
    MkOutcome
      [ "Number of pages: 1";
        newline +:+ "PDF Metadata:";
        "  /Producer: cairo";
        "  /Author: me";
        "PyPDF2 error: cannot decode page contents" ]
      [] (Ok tt).
Proof.
  exact (phase1_keeps_lines_before_failure repr_str world_bad_page "good-fonts.pdf" []
           _ {| PyPDF2.extract_text := Raise exn_decode |} []
           (Some [("/Producer", "cairo"); ("/Author", "me")]) exn_decode []
           eq_refl eq_refl eq_refl eq_refl eq_refl eq_refl).
Defined.

(** [world_bad_page]: pdfplumber fails on the records of the first page. *)
Lemma phase2_failure_witness :
  phase2 repr_str str_float str_set world_bad_page "good-fonts.pdf" [] =
    MkOutcome
      [ "PDF opened with pdfplumber";
        "Number of pages: 1";
        newline +:+ "Extracted text preview (first 300 chars):";
        "Hello World...";
        "pdfplumber error: cannot decode page contents" ]
      [] (Ok tt).
Proof.
  exact (phase2_keeps_lines_before_failure repr_str str_float str_set world_bad_page
           "good-fonts.pdf" [] _
           {| pdfplumber.extract_text := Ok (Some "Hello World");
              pdfplumber.chars := Raise exn_decode |} [] "Hello World" exn_decode []
           eq_refl eq_refl eq_refl eq_refl ltac:(discriminate) eq_refl eq_refl).
Defined.

(** [world_garbage]: both libraries reject the file. *)
Lemma rejected_file_witness :
  main repr_str str_float str_set world_garbage =
    MkOutcome
      [ "Analyzing PDF: good-fonts.pdf" +:+ newline;
        "PyPDF2 error: EOF marker not found";
        newline +:+ str_mul "=" 50 +:+ newline;
        "pdfplumber error: No /Root object! - Is this really a PDF?" ]
      [] (Ok tt).
Proof.
  exact (rejected_file_reports_both_errors repr_str str_float str_set world_garbage
           "good-fonts.pdf" [] exn_eof exn_syntax [] eq_refl eq_refl eq_refl eq_refl eq_refl).
Defined.

(** [world_interrupted]: the run stops in phase 1 and ends as an
    interrupted process does. *)
Lemma interrupted_run_witness :
  main repr_str str_float str_set world_interrupted =
    MkOutcome [ "Analyzing PDF: good-fonts.pdf" +:+ newline ] [] (Raise KeyboardInterrupt)
  ∧ exit_status (main repr_str str_float str_set world_interrupted) = 130%Z.
Proof.
  exact (non_Exception_ends_the_run repr_str str_float str_set world_interrupted
           "good-fonts.pdf" [] KeyboardInterrupt [] eq_refl eq_refl eq_refl).
Defined.

(** [world_no_pages]: a document of zero pages. *)
Lemma no_pages_witness :
  phase1 repr_str world_no_pages "good-fonts.pdf" [] =
    MkOutcome
      [ "Number of pages: 0"; newline +:+ "PDF Metadata:"; "  /Title: blank" ] [] (Ok tt)
  ∧ phase2 repr_str str_float str_set world_no_pages "good-fonts.pdf" [] =
      MkOutcome [ "PDF opened with pdfplumber"; "Number of pages: 0" ] [] (Ok tt).
Proof.
  exact (document_without_pages repr_str str_float str_set world_no_pages
           "good-fonts.pdf" [] _ (Some [("/Title", "blank")]) _ []
           eq_refl eq_refl eq_refl eq_refl eq_refl eq_refl).
Defined.

(** [world_text_only]: text on the first page and no records. *)
Lemma no_chars_witness :
  phase2 repr_str str_float str_set world_text_only "good-fonts.pdf" [] =
    MkOutcome
      [ "PDF opened with pdfplumber";
        "Number of pages: 1";
        newline +:+ "Extracted text preview (first 300 chars):";
        "Hello World..." ]
      [] (Ok tt).
Proof.
  exact (page_without_chars repr_str str_float str_set world_text_only
           "good-fonts.pdf" [] _ page_text_only [] (Some "Hello World") []
           eq_refl eq_refl eq_refl eq_refl eq_refl).
Defined.

(** The same records, repeated and in another order. *)
Lemma order_and_repeats_witness :
  fonts [glyph_H; glyph_H; glyph_1004] = fonts [glyph_1004; glyph_H]
  ∧ font_sizes [glyph_H; glyph_H; glyph_1004] = font_sizes [glyph_1004; glyph_H]
  ∧ sorted_font_sizes [glyph_H; glyph_H; glyph_1004] =
      sorted_font_sizes [glyph_1004; glyph_H].
Proof.
  apply (font_sets_ignore_order_and_repeats
           [glyph_H; glyph_H; glyph_1004] [glyph_1004; glyph_H]).
  intros c. simpl. rewrite !elem_of_cons, !elem_of_nil. tauto.
Defined.

(** A page whose only record has no [size]. *)
Lemma no_sizes_witness :
  printed (report_chars str_float str_set world_hello page_bare []) !! 1%nat =
    Some "Font sizes found: []".
Proof.
  apply (sizes_line_without_sizes str_float str_set world_hello page_bare [glyph_bare] []).
  - reflexivity.
  - discriminate.
  - intros c Hc. simpl in Hc. apply list_elem_of_singleton in Hc. by rewrite Hc.
Defined.

(** The bound of 12 calls is reached: text and more than five records. *)
Example twelve_print_calls_reached :
  length (printed (phase2 repr_str str_float str_set world_long "good-fonts.pdf" [])) = 12%nat.
Proof. vm_compute. reflexivity. Qed.

End EdgeRuns.
